(** * lido-standalone: the load sequence of the <lido-standalone> element

    A shallow embedding of [src/components/lido-standalone/lido-standalone.tsx]
    (class [LidoStandalone]) and the properties of its two resolutions:
    script resolution ([injectLidoScripts], [doesFileExistSync],
    [fallbackNpmImport]) and content resolution ([fetchXmlData]), together
    with [render].

    The component's methods read and write the fields of [this], talk to the
    network through synchronous [XMLHttpRequest]s, append <script> elements to
    [document.head], write to the console and start one dynamic [import()].
    They are embedded in a small monad that reads the outcomes of the network
    and of the module loader from an environment, threads the component, and
    emits every effect, in program order, as an event. *)

From Stdlib Require Import String Ascii ZArith List Bool Lia.
Import ListNotations.

Local Open Scope Z_scope.
Local Open Scope list_scope.

(** ** JavaScript values used by the component *)

Module Js.

(** [ToBoolean] on a string: only the empty string is falsy. *)
Definition truthy (s : string) : bool :=
  match s with
  | EmptyString => false
  | String _ _ => true
  end.

(** [ToBoolean] on an optional string property ([undefined] or a string). *)
Definition truthy_opt (o : option string) : bool :=
  match o with
  | None => false
  | Some s => truthy s
  end.

Definition is_slash (a : ascii) : bool := Ascii.eqb a "/"%char.

(** Does [/\/+$/] match when the match is made to start at the head of [s]?
    It does exactly when [s] is a non-empty run of slashes. *)
Fixpoint all_slashes (s : string) : bool :=
  match s with
  | EmptyString => true
  | String a r => is_slash a && all_slashes r
  end.

Definition slashes_to_end (s : string) : bool :=
  match s with
  | EmptyString => false
  | String _ _ => all_slashes s
  end.

(** [s.replace(/\/+$/, '')]: the regular expression is tried at every start
    position from the left; the first position where it matches is replaced
    (the match extends to the end of the input), and a string without a match
    is returned as it is. *)
Fixpoint replace_trailing_slashes (s : string) : string :=
  match s with
  | EmptyString => EmptyString
  | String a r =>
      if slashes_to_end s then EmptyString
      else String a (replace_trailing_slashes r)
  end.

(** [s.endsWith("/")]. *)
Fixpoint ends_with_slash (s : string) : bool :=
  match s with
  | EmptyString => false
  | String a EmptyString => is_slash a
  | String _ r => ends_with_slash r
  end.

(** The double-quote character, for the messages that quote a name. *)
Definition dq : string := String (ascii_of_nat 34) EmptyString.

End Js.

(** ** The browser: network, document, console, module loader *)

Module Browser.

Inductive http_method := HEAD | GET.

(** What a synchronous request does: [open] throws, [send] throws, or the
    request completes with a status and a response text. *)
Inductive xhr_result :=
| XhrOpenThrows (err : string)
| XhrSendThrows (err : string)
| XhrResponse (status : Z) (responseText : string).

(** What [import(specifier)] settles to: the promise is rejected, or it is
    fulfilled with a module whose [defineCustomElements], when called,
    returns ([None]) or throws ([Some err]). *)
Inductive import_result :=
| ImportRejected (err : string)
| ImportFulfilled (defineCustomElements_throws : option string).

(** The environment of a call: what the network does with a request and the
    loader with an import.  Equal requests of one call meet the same
    outcome. *)
Record Env := {
  xhr : http_method -> string -> xhr_result;
  import_module : string -> import_result
}.

(** A <script> element as the component configures it. *)
Record Script := {
  script_type : option string;
  script_nomodule : bool;
  script_src : string
}.

Inductive level := LogLevel | DebugLevel | WarnLevel | ErrorLevel.

Inductive arg :=
| AStr (s : string)
| ANum (n : Z)
| AErr (err : string).

(** An assignment to a field of the component. *)
Inductive write :=
| WScriptsInjected (b : bool)
| WLocalXmlData (v : option string)
| WXmlPath (s : string)
| WXmlBaseUrl (s : string).

Inductive event :=
| EvConsole (l : level) (args : list arg)
| EvXhr (m : http_method) (url : string) (r : xhr_result)
| EvAppendChild (s : Script)
| EvImport (specifier : string)
| EvDefineCustomElements
| EvWrite (w : write).

Definition method_eqb (a b : http_method) : bool :=
  match a, b with
  | HEAD, HEAD | GET, GET => true
  | _, _ => false
  end.

(** [xhr.status >= 200 && xhr.status < 300] *)
Definition status_2xx (status : Z) : bool :=
  (200 <=? status) && (status <? 300).

(** A request that completed with a 2xx status. *)
Definition xhr_ok (r : xhr_result) : bool :=
  match r with
  | XhrResponse status _ => status_2xx status
  | _ => false
  end.

(** The fallback succeeds when the module loads and its registration entry
    point returns. *)
Definition import_ok (r : import_result) : bool :=
  match r with
  | ImportFulfilled None => true
  | _ => false
  end.

(** *** Projections of a trace *)

Fixpoint appended (t : list event) : list Script :=
  match t with
  | [] => []
  | EvAppendChild s :: t' => s :: appended t'
  | _ :: t' => appended t'
  end.

Fixpoint requests (t : list event) : list (http_method * string) :=
  match t with
  | [] => []
  | EvXhr m u _ :: t' => (m, u) :: requests t'
  | _ :: t' => requests t'
  end.

Fixpoint imports (t : list event) : list string :=
  match t with
  | [] => []
  | EvImport s :: t' => s :: imports t'
  | _ :: t' => imports t'
  end.

Fixpoint writes (t : list event) : list write :=
  match t with
  | [] => []
  | EvWrite w :: t' => w :: writes t'
  | _ :: t' => writes t'
  end.

Definition is_scriptsInjected_write (w : write) : bool :=
  match w with WScriptsInjected _ => true | _ => false end.

Definition is_xmlBaseUrl_write (w : write) : bool :=
  match w with WXmlBaseUrl _ => true | _ => false end.


End Browser.

(** ** The component *)

Module LidoStandalone.
Import Js Browser.

(** The fields of the class: the six [@Prop]s and the three [@State]s. *)
Record Component := {
  baseUrl : string;
  xmlPath : option string;
  initialIndex : Z;
  canplay : bool;
  height : string;
  xmlData : option string;
  scriptsInjected : bool;
  localXmlData : option string;
  xmlBaseUrl : option string
}.

(** A freshly constructed instance: the field initialisers of the class. *)
Definition initial : Component := {|
  baseUrl := "";
  xmlPath := None;
  initialIndex := 0;
  canplay := false;
  height := "75vh";
  xmlData := None;
  scriptsInjected := false;
  localXmlData := None;
  xmlBaseUrl := None
|}.

Definition set_baseUrl (v : string) (c : Component) : Component := {|
  baseUrl := v; xmlPath := xmlPath c; initialIndex := initialIndex c;
  canplay := canplay c; height := height c; xmlData := xmlData c;
  scriptsInjected := scriptsInjected c; localXmlData := localXmlData c;
  xmlBaseUrl := xmlBaseUrl c |}.

Definition set_xmlPath (v : option string) (c : Component) : Component := {|
  baseUrl := baseUrl c; xmlPath := v; initialIndex := initialIndex c;
  canplay := canplay c; height := height c; xmlData := xmlData c;
  scriptsInjected := scriptsInjected c; localXmlData := localXmlData c;
  xmlBaseUrl := xmlBaseUrl c |}.

Definition set_xmlData (v : option string) (c : Component) : Component := {|
  baseUrl := baseUrl c; xmlPath := xmlPath c; initialIndex := initialIndex c;
  canplay := canplay c; height := height c; xmlData := v;
  scriptsInjected := scriptsInjected c; localXmlData := localXmlData c;
  xmlBaseUrl := xmlBaseUrl c |}.

Definition set_scriptsInjected (v : bool) (c : Component) : Component := {|
  baseUrl := baseUrl c; xmlPath := xmlPath c; initialIndex := initialIndex c;
  canplay := canplay c; height := height c; xmlData := xmlData c;
  scriptsInjected := v; localXmlData := localXmlData c;
  xmlBaseUrl := xmlBaseUrl c |}.

Definition set_localXmlData (v : option string) (c : Component) : Component := {|
  baseUrl := baseUrl c; xmlPath := xmlPath c; initialIndex := initialIndex c;
  canplay := canplay c; height := height c; xmlData := xmlData c;
  scriptsInjected := scriptsInjected c; localXmlData := v;
  xmlBaseUrl := xmlBaseUrl c |}.

Definition set_xmlBaseUrl (v : option string) (c : Component) : Component := {|
  baseUrl := baseUrl c; xmlPath := xmlPath c; initialIndex := initialIndex c;
  canplay := canplay c; height := height c; xmlData := xmlData c;
  scriptsInjected := scriptsInjected c; localXmlData := localXmlData c;
  xmlBaseUrl := v |}.

(** *** The effect monad

    A computation reads the environment, starts from a component, and ends
    normally with a value or abruptly with a thrown error; either way it
    leaves a component and the events it emitted.  The operations that can
    throw are the ones the environment decides: [open] and [send] of a
    request, the dynamic import (by rejection) and [defineCustomElements];
    console and document calls return. *)

Inductive completion (A : Type) :=
| Normal (a : A)
| Thrown (err : string).
Arguments Normal {A} a.
Arguments Thrown {A} err.

Record Run (A : Type) := mkRun {
  result : completion A;
  this : Component;
  trace : list event
}.
Arguments mkRun {A}.
Arguments result {A}.
Arguments this {A}.
Arguments trace {A}.

Definition M (A : Type) : Type := Env -> Component -> Run A.

Definition ret {A} (a : A) : M A :=
  fun _ c => mkRun (Normal a) c [].

Definition bind {A B} (m : M A) (k : A -> M B) : M B :=
  fun env c =>
    let r := m env c in
    match result r with
    | Normal a =>
        let r' := k a env (this r) in
        mkRun (result r') (this r') (trace r ++ trace r')
    | Thrown err => mkRun (Thrown err) (this r) (trace r)
    end.

Definition throw {A} (err : string) : M A :=
  fun _ c => mkRun (Thrown err) c [].

(** [try { body } catch (err) { handler }] *)
Definition try_catch {A} (body : M A) (handler : string -> M A) : M A :=
  fun env c =>
    let r := body env c in
    match result r with
    | Normal a => r
    | Thrown err =>
        let r' := handler err env (this r) in
        mkRun (result r') (this r') (trace r ++ trace r')
    end.

Definition emit (e : event) : M unit :=
  fun _ c => mkRun (Normal tt) c [e].

(** Reading a field of [this]. *)
Definition read {A} (field : Component -> A) : M A :=
  fun _ c => mkRun (Normal (field c)) c [].

(** Assigning a field of [this]. *)
Definition assign (w : write) : M unit :=
  fun _ c =>
    let c' :=
      match w with
      | WScriptsInjected b => set_scriptsInjected b c
      | WLocalXmlData v => set_localXmlData v c
      | WXmlPath s => set_xmlPath (Some s) c
      | WXmlBaseUrl s => set_xmlBaseUrl (Some s) c
      end in
    mkRun (Normal tt) c' [EvWrite w].

Definition console (l : level) (args : list arg) : M unit :=
  emit (EvConsole l args).

(** [document.head.appendChild(script)] *)
Definition appendChild (s : Script) : M unit :=
  emit (EvAppendChild s).

(** [const xhr = new XMLHttpRequest(); xhr.open(m, url, false); xhr.send(null)]:
    the value is the pair of [xhr.status] and [xhr.responseText]. *)
Definition xhr_request (m : http_method) (url : string) : M (Z * string) :=
  fun env c =>
    let r := xhr env m url in
    let res :=
      match r with
      | XhrOpenThrows err => Thrown err
      | XhrSendThrows err => Thrown err
      | XhrResponse status text => Normal (status, text)
      end in
    mkRun res c [EvXhr m url r].

(** [defineCustomElements(window)] of a loaded module. *)
Definition defineCustomElements (throws : option string) : M unit :=
  fun _ c =>
    mkRun (match throws with None => Normal tt | Some err => Thrown err end)
          c [EvDefineCustomElements].

Declare Scope js_scope.
Delimit Scope js_scope with js.
Notation "x <- m ;; k" := (bind m (fun x => k))
  (at level 61, m at next level, right associativity) : js_scope.
Notation "m ;; k" := (bind m (fun _ => k))
  (at level 61, right associativity) : js_scope.
Local Open Scope js_scope.

(** *** Script resolution *)

Definition loader_specifier : string := "lido-player/loader".

(** [const cleanBase = this.baseUrl.replace(/\/+$/, '')] *)
Definition cleanBase (base : string) : string :=
  replace_trailing_slashes base.

(** [const scriptCheckUrl = `${cleanBase}/code/lido-player.esm.js`] *)
Definition scriptCheckUrl (base : string) : string :=
  (cleanBase base ++ "/code/lido-player.esm.js")%string.

(** [`${cleanBase}/code/lido-player.js`] *)
Definition noModuleUrl (base : string) : string :=
  (cleanBase base ++ "/code/lido-player.js")%string.

Definition scriptEsm (base : string) : Script :=
  {| script_type := Some "module"%string;
     script_nomodule := false;
     script_src := scriptCheckUrl base |}.

Definition scriptNoModule (base : string) : Script :=
  {| script_type := None;
     script_nomodule := true;
     script_src := noModuleUrl base |}.

(** [doesFileExistSync(url)] *)
Definition doesFileExistSync (url : string) : M bool :=
  try_catch
    (r <- xhr_request HEAD url ;;
     ret (status_2xx (fst r)))
    (fun err =>
       console WarnLevel
         [AStr "Synchronous HEAD request failed for:"; AStr url; AErr err] ;;
       ret false).

(** [fallbackNpmImport()]: the call only starts the dynamic import; the
    promise settles after the caller has returned. *)
Definition fallbackNpmImport : M unit :=
  emit (EvImport loader_specifier).

(** The reactions attached to the import promise,
    [.then(({ defineCustomElements }) => {...}).catch(err => {...})],
    run when the promise has settled to [r]. *)
Definition import_settled (r : import_result) : M unit :=
  try_catch
    match r with
    | ImportRejected err => throw err
    | ImportFulfilled d =>
        defineCustomElements d ;;
        assign (WScriptsInjected true) ;;
        console DebugLevel
          [AStr "Lido scripts loaded via npm fallback (defineCustomElements)."]
    end
    (fun err =>
       console ErrorLevel
         [AStr ("Failed to load from npm package " ++ dq ++ "lido-player"
                  ++ dq ++ ":")%string;
          AErr err]).

(** [injectLidoScripts()] *)
Definition injectLidoScripts : M unit :=
  base <- read baseUrl ;;
  console LogLevel [AStr "injectLidoScripts() called. baseUrl="; AStr base] ;;
  if negb (truthy base) then
    console WarnLevel
      [AStr "lido-standalone: No baseUrl provided. Using npm fallback..."] ;;
    fallbackNpmImport
  else
    injected <- read scriptsInjected ;;
    if injected then ret tt
    else
      fileExists <- doesFileExistSync (scriptCheckUrl base) ;;
      if fileExists then
        appendChild (scriptEsm base) ;;
        appendChild (scriptNoModule base) ;;
        assign (WScriptsInjected true) ;;
        console DebugLevel [AStr "Lido scripts injected from:"; AStr base]
      else
        console WarnLevel
          [AStr ("Could not find remote scripts at " ++ dq
                   ++ scriptCheckUrl base ++ dq
                   ++ ". Falling back to npm package " ++ dq ++ "lido-player"
                   ++ dq ++ "...")%string] ;;
        fallbackNpmImport.

(** *** Content resolution *)

(** [`${this.baseUrl}/index.xml`] *)
Definition defaultXmlPath (base : string) : string :=
  (base ++ "/index.xml")%string.

(** A string-or-undefined value where a string is expected ([ToString]). *)
Definition to_string (o : option string) : string :=
  match o with
  | Some s => s
  | None => "undefined"%string
  end.

(** The [try] statement that ends [fetchXmlData]; [this.xmlPath] is read
    where the statement uses it. *)
Definition fetchXml : M unit :=
  try_catch
    (path <- read xmlPath ;;
     r <- xhr_request GET (to_string path) ;;
     if status_2xx (fst r) then assign (WLocalXmlData (Some (snd r)))
     else
       path <- read xmlPath ;;
       console WarnLevel
         [AStr ("Failed to fetch XML from " ++ to_string path ++ ":")%string;
          ANum (fst r)])
    (fun err =>
       path <- read xmlPath ;;
       console WarnLevel
         [AStr ("Error fetching XML from " ++ to_string path ++ ":")%string;
          AErr err]).

(** [this.xmlPath = v] in a method of the component.  [xmlPath] is a
    [@Prop] with the watcher [@Watch('xmlPath') onXmlPathChange()]: the
    runtime stores the value and calls the watcher, and the assignment
    completes when the watcher has returned. *)
Definition assign_xmlPath (v : string) (onXmlPathChange : M unit) : M unit :=
  assign (WXmlPath v) ;;
  onXmlPathChange.

(** The default of [fetchXmlData]:
    [if (!this.xmlPath) { if (this.baseUrl) {...} else { return; } }].
    The value tells whether the method goes on to the request. *)
Definition defaultLocation (onXmlPathChange : M unit) : M bool :=
  path <- read xmlPath ;;
  if negb (truthy_opt path) then
    base <- read baseUrl ;;
    if truthy base then
      assign_xmlPath (defaultXmlPath base) onXmlPathChange ;;
      base' <- read baseUrl ;;
      assign (WXmlBaseUrl base') ;;
      ret true
    else ret false
  else ret true.

(** The body of [fetchXmlData()], given what the watcher of [xmlPath]
    does. *)
Definition fetchXmlData_calling (onXmlPathChange : M unit) : M unit :=
  data <- read xmlData ;;
  if truthy_opt data then
    data' <- read xmlData ;;
    assign (WLocalXmlData data')
  else
    go_on <- defaultLocation onXmlPathChange ;;
    if go_on then fetchXml else ret tt.

(** [fetchXmlData()] with room for [depth] nested calls: the watcher
    [onXmlPathChange() { this.fetchXmlData(); }] calls the method again, and
    a call for which no room is left throws as a full call stack does. *)
Fixpoint fetchXmlData_depth (depth : nat) : M unit :=
  match depth with
  | O => throw "RangeError: Maximum call stack size exceeded"
  | S d => fetchXmlData_calling (fetchXmlData_depth d)
  end.

(** [fetchXmlData()].  The call made by the watcher finds [xmlPath] set and
    does not assign it again, so calls nest two deep at most and more room
    changes nothing ([fetchXmlData_depth_enough] below). *)
Definition fetchXmlData : M unit := fetchXmlData_depth 2.

(** *** Lifecycle *)

(** [componentWillLoad()] *)
Definition componentWillLoad : M unit :=
  injectLidoScripts ;;
  fetchXmlData.

(** [@Watch('baseUrl') onBaseUrlChange()] *)
Definition onBaseUrlChange : M unit := injectLidoScripts.

(** [@Watch('xmlPath') onXmlPathChange()] *)
Definition onXmlPathChange : M unit := fetchXmlData.

(** The <lido-home> element that [render()] returns. *)
Record LidoHome := {
  attr_initial_index : Z;
  attr_canplay : bool;
  attr_height : string;
  attr_xml_data : option string;
  attr_base_url : option string
}.

Definition render (c : Component) : LidoHome := {|
  attr_initial_index := initialIndex c;
  attr_canplay := canplay c;
  attr_height := height c;
  attr_xml_data := localXmlData c;
  attr_base_url := xmlBaseUrl c
|}.

(** *** The host: triggers and settled imports

    The methods are private; the runtime calls [componentWillLoad] once and
    a watcher when the host changes the watched property (and, as
    [assign_xmlPath] has it, when a method assigns it).  A dynamic import
    started by a call settles after the call has returned, and its reactions
    run then. *)

(** The reactions of the imports in [started], in the order started. *)
Fixpoint settle (started : list string) : M unit :=
  match started with
  | [] => ret tt
  | specifier :: rest =>
      (fun env => import_settled (import_module env specifier) env) ;;
      settle rest
  end.

(** A call run to completion: the call, then the reactions of the imports
    it started. *)
Definition turn (call : M unit) : M unit :=
  fun env c =>
    let r := call env c in
    let r' := settle (imports (trace r)) env (this r) in
    mkRun (match result r with
           | Normal _ => result r'
           | Thrown err => Thrown err
           end)
          (this r') (trace r ++ trace r').

(** One resolution attempt of the scripts. *)
Definition scriptResolution : M unit := turn injectLidoScripts.

Inductive trigger :=
| Load
| BaseUrlChanged (v : string)
| XmlPathChanged (v : option string)
| XmlDataChanged (v : option string).

(** The host writes the property, then the watcher (if any) runs. *)
Definition host_sets (f : Component -> Component) : M unit :=
  fun _ c => mkRun (Normal tt) (f c) [].

Definition handle (t : trigger) : M unit :=
  match t with
  | Load => componentWillLoad
  | BaseUrlChanged v => host_sets (set_baseUrl v) ;; onBaseUrlChange
  | XmlPathChanged v => host_sets (set_xmlPath v) ;; onXmlPathChange
  | XmlDataChanged v => host_sets (set_xmlData v)
  end.

(** The page between two steps: the component and the imports that were
    started and have not settled yet. *)
Record Page := {
  component : Component;
  pending : list string
}.

Inductive step :=
| Trigger (t : trigger)
| SettleNext.

Definition next (env : Env) (s : step) (p : Page) : Page :=
  match s with
  | Trigger t =>
      let r := handle t env (component p) in
      {| component := this r; pending := pending p ++ imports (trace r) |}
  | SettleNext =>
      match pending p with
      | [] => p
      | specifier :: rest =>
          let r := import_settled (import_module env specifier) env
                     (component p) in
          {| component := this r; pending := rest |}
      end
  end.

(** A history: each step with the environment it meets. *)
Fixpoint history (h : list (Env * step)) (p : Page) : Page :=
  match h with
  | [] => p
  | (env, s) :: h' => history h' (next env s p)
  end.

(** *** The console calls of [injectLidoScripts], named *)

Definition ev_called (base : string) : event :=
  EvConsole LogLevel [AStr "injectLidoScripts() called. baseUrl="; AStr base].

Definition ev_no_base : event :=
  EvConsole WarnLevel
    [AStr "lido-standalone: No baseUrl provided. Using npm fallback..."].

Definition ev_head_failed (url err : string) : event :=
  EvConsole WarnLevel
    [AStr "Synchronous HEAD request failed for:"; AStr url; AErr err].

Definition ev_not_found (url : string) : event :=
  EvConsole WarnLevel
    [AStr ("Could not find remote scripts at " ++ dq ++ url ++ dq
             ++ ". Falling back to npm package " ++ dq ++ "lido-player"
             ++ dq ++ "...")%string].

Definition ev_injected (base : string) : event :=
  EvConsole DebugLevel [AStr "Lido scripts injected from:"; AStr base].

Definition ev_fallback_loaded : event :=
  EvConsole DebugLevel
    [AStr "Lido scripts loaded via npm fallback (defineCustomElements)."].

Definition ev_fallback_failed (err : string) : event :=
  EvConsole ErrorLevel
    [AStr ("Failed to load from npm package " ++ dq ++ "lido-player"
             ++ dq ++ ":")%string;
     AErr err].

Definition ev_fetch_refused (path : string) (status : Z) : event :=
  EvConsole WarnLevel
    [AStr ("Failed to fetch XML from " ++ path ++ ":")%string; ANum status].

Definition ev_fetch_threw (path err : string) : event :=
  EvConsole WarnLevel
    [AStr ("Error fetching XML from " ++ path ++ ":")%string; AErr err].

(** *** What the console shows of a failure *)

(** The console calls that report the outcome [res] of a request in a
    trace: a probe that is refused or throws is reported by the warning that
    the scripts were not found (and, when it throws, by the warning of
    [doesFileExistSync] with the error), a refused or throwing GET by the
    warning of [fetchXmlData]; a 2xx outcome needs no report. *)
Definition reported (t : list event) (m : http_method) (u : string)
    (res : xhr_result) : Prop :=
  match m, res with
  | HEAD, XhrResponse status _ =>
      status_2xx status = false -> In (ev_not_found u) t
  | HEAD, XhrOpenThrows err | HEAD, XhrSendThrows err =>
      In (ev_head_failed u err) t /\ In (ev_not_found u) t
  | GET, XhrResponse status _ =>
      status_2xx status = false -> In (ev_fetch_refused u status) t
  | GET, XhrOpenThrows err | GET, XhrSendThrows err =>
      In (ev_fetch_threw u err) t
  end.

(** A failed fallback is reported at error severity with its error. *)
Definition import_reported (t : list event) (r : import_result) : Prop :=
  match r with
  | ImportRejected err | ImportFulfilled (Some err) =>
      In (ev_fallback_failed err) t
  | ImportFulfilled None => True
  end.

End LidoStandalone.

(** ** Scenarios: concrete servers and configurations *)

Module Scenario.
Import Js Browser LidoStandalone.

Definition route := (http_method * string * xhr_result)%type.

Fixpoint answer (routes : list route) (m : http_method) (url : string)
  : xhr_result :=
  match routes with
  | [] => XhrResponse 404 ""
  | (m', url', r) :: rest =>
      if method_eqb m m' && String.eqb url url' then r
      else answer rest m url
  end.

(** A server that answers the listed requests and 404 to every other one,
    with a module loader that settles every import to [loader]. *)
Definition server (routes : list route) (loader : import_result) : Env :=
  {| xhr := answer routes; import_module := fun _ => loader |}.

Definition configured (base : string) (path data : option string)
  : Component :=
  set_xmlData data (set_xmlPath path (set_baseUrl base initial)).

Definition xml_ok : Env :=
  server [(GET, "https://x/y/index.xml", XhrResponse 200 "<xml/>")]%string
         (ImportFulfilled None).

Definition xml_down : Env :=
  server [(GET, "https://x/y/index.xml", XhrResponse 500 "")]%string
         (ImportFulfilled None).

Definition scripts_ok : Env :=
  server [(HEAD, "https://h/p/code/lido-player.esm.js", XhrResponse 200 "");
          (GET, "https://h/p/index.xml", XhrResponse 200 "<xml/>")]%string
         (ImportFulfilled None).

Definition offline (loader : import_result) : Env :=
  {| xhr := fun _ _ => XhrSendThrows "NetworkError";
     import_module := fun _ => loader |}.

End Scenario.

(** ** Properties *)

Import Js Browser LidoStandalone.
Local Open Scope js_scope.

#[local] Arguments scriptCheckUrl : simpl never.
#[local] Arguments noModuleUrl : simpl never.
#[local] Arguments scriptEsm : simpl never.
#[local] Arguments scriptNoModule : simpl never.
#[local] Arguments defaultXmlPath : simpl never.
#[local] Arguments append : simpl never.
#[local] Arguments status_2xx : simpl never.
#[local] Arguments fetchXml : simpl never.

(** Unfolding a method down to the primitive effects. *)
Ltac unfold_method :=
  unfold componentWillLoad, onBaseUrlChange, onXmlPathChange,
    injectLidoScripts, doesFileExistSync, fallbackNpmImport,
    import_settled, fetchXml,
    try_catch, bind, ret, throw, read, assign, console, appendChild, emit,
    xhr_request, defineCustomElements, host_sets.

(** Rewriting with the facts known about the tests on the way. *)
Ltac take_branch :=
  repeat match goal with
    | H : ?t = _ |- context [?t] => rewrite H; cbn
    end.

(** *** Two loads, run *)

(** The scripts are hosted and the default XML is there: two scripts are
    appended, the flag is set, the payload and the base are resolved; the
    default location is requested by the watcher of [xmlPath] and by the
    method. *)
Example load_from_host :
  let l := turn (handle Load) Scenario.scripts_ok
             (Scenario.configured "https://h/p" None None) in
  result l = Normal tt /\
  appended (trace l)
  = [scriptEsm "https://h/p"; scriptNoModule "https://h/p"] /\
  requests (trace l)
  = [(HEAD, "https://h/p/code/lido-player.esm.js"%string);
     (GET, "https://h/p/index.xml"%string);
     (GET, "https://h/p/index.xml"%string)] /\
  imports (trace l) = [] /\
  render (this l)
  = {| attr_initial_index := 0; attr_canplay := false;
       attr_height := "75vh"; attr_xml_data := Some "<xml/>"%string;
       attr_base_url := Some "https://h/p"%string |} /\
  scriptsInjected (this l) = true.
Proof. cbv zeta. repeat split; reflexivity. Qed.

(** No base and a loader that cannot be imported: nothing is requested, the
    flag stays false, the failure is on the console. *)
Example load_without_base_or_loader :
  let l := turn (handle Load) (Scenario.offline (ImportRejected "no module"))
             initial in
  result l = Normal tt /\
  requests (trace l) = [] /\
  trace l
  = [ev_called ""; ev_no_base; EvImport loader_specifier;
     ev_fallback_failed "no module"] /\
  scriptsInjected (this l) = false /\
  localXmlData (this l) = None.
Proof. cbv zeta. repeat split; reflexivity. Qed.

(** *** Truthiness and the trailing-slash replacement *)

Lemma truthy_true_iff (s : string) : truthy s = true <-> s <> EmptyString.
Proof. destruct s; simpl; split; congruence. Qed.

Lemma truthy_false_iff (s : string) : truthy s = false <-> s = EmptyString.
Proof. destruct s; simpl; split; congruence. Qed.

(** *** The equations of [injectLidoScripts], one per path *)

Section InjectPaths.
Variables (env : Env) (c : Component).

Lemma inject_no_base :
  truthy (baseUrl c) = false ->
  injectLidoScripts env c
  = mkRun (Normal tt) c
      [ev_called (baseUrl c); ev_no_base; EvImport loader_specifier].
Proof.
  intros Hb. unfold_method. cbn. take_branch. reflexivity.
Qed.

Lemma inject_already :
  truthy (baseUrl c) = true -> scriptsInjected c = true ->
  injectLidoScripts env c = mkRun (Normal tt) c [ev_called (baseUrl c)].
Proof.
  intros Hb Hi. unfold_method. cbn. take_branch. reflexivity.
Qed.

Lemma inject_remote (status : Z) (text : string) :
  truthy (baseUrl c) = true -> scriptsInjected c = false ->
  xhr env HEAD (scriptCheckUrl (baseUrl c)) = XhrResponse status text ->
  status_2xx status = true ->
  injectLidoScripts env c
  = mkRun (Normal tt) (set_scriptsInjected true c)
      [ev_called (baseUrl c);
       EvXhr HEAD (scriptCheckUrl (baseUrl c)) (XhrResponse status text);
       EvAppendChild (scriptEsm (baseUrl c));
       EvAppendChild (scriptNoModule (baseUrl c));
       EvWrite (WScriptsInjected true);
       ev_injected (baseUrl c)].
Proof.
  intros Hb Hi Hx Hs. unfold_method. cbn. take_branch. reflexivity.
Qed.

Lemma inject_refused (status : Z) (text : string) :
  truthy (baseUrl c) = true -> scriptsInjected c = false ->
  xhr env HEAD (scriptCheckUrl (baseUrl c)) = XhrResponse status text ->
  status_2xx status = false ->
  injectLidoScripts env c
  = mkRun (Normal tt) c
      [ev_called (baseUrl c);
       EvXhr HEAD (scriptCheckUrl (baseUrl c)) (XhrResponse status text);
       ev_not_found (scriptCheckUrl (baseUrl c));
       EvImport loader_specifier].
Proof.
  intros Hb Hi Hx Hs. unfold_method. cbn. take_branch. reflexivity.
Qed.

Lemma inject_open_throws (err : string) :
  truthy (baseUrl c) = true -> scriptsInjected c = false ->
  xhr env HEAD (scriptCheckUrl (baseUrl c)) = XhrOpenThrows err ->
  injectLidoScripts env c
  = mkRun (Normal tt) c
      [ev_called (baseUrl c);
       EvXhr HEAD (scriptCheckUrl (baseUrl c)) (XhrOpenThrows err);
       ev_head_failed (scriptCheckUrl (baseUrl c)) err;
       ev_not_found (scriptCheckUrl (baseUrl c));
       EvImport loader_specifier].
Proof.
  intros Hb Hi Hx. unfold_method. cbn. take_branch. reflexivity.
Qed.

Lemma inject_send_throws (err : string) :
  truthy (baseUrl c) = true -> scriptsInjected c = false ->
  xhr env HEAD (scriptCheckUrl (baseUrl c)) = XhrSendThrows err ->
  injectLidoScripts env c
  = mkRun (Normal tt) c
      [ev_called (baseUrl c);
       EvXhr HEAD (scriptCheckUrl (baseUrl c)) (XhrSendThrows err);
       ev_head_failed (scriptCheckUrl (baseUrl c)) err;
       ev_not_found (scriptCheckUrl (baseUrl c));
       EvImport loader_specifier].
Proof.
  intros Hb Hi Hx. unfold_method. cbn. take_branch. reflexivity.
Qed.

End InjectPaths.

(** *** The equations of [fetchXmlData] *)

Section FetchPaths.
Variable env : Env.

Lemma fetchXmlData_depth_inline (d : nat) (c : Component) :
  truthy_opt (xmlData c) = true ->
  fetchXmlData_depth (S d) env c
  = mkRun (Normal tt) (set_localXmlData (xmlData c) c)
      [EvWrite (WLocalXmlData (xmlData c))].
Proof.
  intros Hd. cbn [fetchXmlData_depth].
  unfold fetchXmlData_calling, bind, read, assign. cbn [result this trace].
  rewrite Hd. reflexivity.
Qed.

Lemma fetchXmlData_inline (c : Component) :
  truthy_opt (xmlData c) = true ->
  fetchXmlData env c
  = mkRun (Normal tt) (set_localXmlData (xmlData c) c)
      [EvWrite (WLocalXmlData (xmlData c))].
Proof. apply fetchXmlData_depth_inline. Qed.

(** The request of [fetchXmlData], by the outcome of the GET. *)
Lemma fetchXml_eq (c : Component) (p : string) :
  xmlPath c = Some p ->
  fetchXml env c
  = match xhr env GET p with
    | XhrResponse status text =>
        if status_2xx status
        then mkRun (Normal tt) (set_localXmlData (Some text) c)
               [EvXhr GET p (XhrResponse status text);
                EvWrite (WLocalXmlData (Some text))]
        else mkRun (Normal tt) c
               [EvXhr GET p (XhrResponse status text);
                ev_fetch_refused p status]
    | XhrOpenThrows err =>
        mkRun (Normal tt) c
          [EvXhr GET p (XhrOpenThrows err); ev_fetch_threw p err]
    | XhrSendThrows err =>
        mkRun (Normal tt) c
          [EvXhr GET p (XhrSendThrows err); ev_fetch_threw p err]
    end.
Proof.
  intros Hp. unfold_method. cbn. rewrite Hp. cbn.
  destruct (xhr env GET p) as [err|err|status text]; cbn;
    try (rewrite Hp; reflexivity).
  destruct (status_2xx status); cbn; rewrite ?Hp; reflexivity.
Qed.

(** [fetchXmlData] without inline data: the default, then the request. *)
Lemma fetchXmlData_depth_nowhere (d : nat) (c : Component) :
  truthy_opt (xmlData c) = false ->
  truthy_opt (xmlPath c) = false -> truthy (baseUrl c) = false ->
  fetchXmlData_depth (S d) env c = mkRun (Normal tt) c [].
Proof.
  intros Hd Hp Hb. cbn [fetchXmlData_depth].
  unfold fetchXmlData_calling, defaultLocation, bind, ret, read.
  cbn [result this trace]. rewrite Hd. cbn [result this trace].
  rewrite Hp. cbn [negb result this trace]. rewrite Hb. reflexivity.
Qed.

Lemma fetchXmlData_nowhere (c : Component) :
  truthy_opt (xmlData c) = false ->
  truthy_opt (xmlPath c) = false -> truthy (baseUrl c) = false ->
  fetchXmlData env c = mkRun (Normal tt) c [].
Proof. apply fetchXmlData_depth_nowhere. Qed.

(** A call with room for itself and an [xmlPath] to fetch does not use the
    watcher. *)
Lemma fetchXmlData_depth_explicit (d : nat) (c : Component) :
  truthy_opt (xmlData c) = false -> truthy_opt (xmlPath c) = true ->
  fetchXmlData_depth (S d) env c = fetchXml env c.
Proof.
  intros Hd Hp. cbn [fetchXmlData_depth].
  unfold fetchXmlData_calling, defaultLocation, bind, ret, read. cbn.
  take_branch. destruct (fetchXml env c); reflexivity.
Qed.

Lemma fetchXmlData_explicit (c : Component) :
  truthy_opt (xmlData c) = false -> truthy_opt (xmlPath c) = true ->
  fetchXmlData env c = fetchXml env c.
Proof. apply fetchXmlData_depth_explicit. Qed.

(** The derived default with room for the watcher's call: the location is
    stored, the watcher requests it, the base is stored, and the method
    requests the location itself. *)
Lemma fetchXmlData_depth_derived (d : nat) (c : Component) :
  truthy_opt (xmlData c) = false ->
  truthy_opt (xmlPath c) = false -> truthy (baseUrl c) = true ->
  fetchXmlData_depth (S (S d)) env c
  = match xhr env GET (defaultXmlPath (baseUrl c)) with
    | XhrResponse status text =>
        if status_2xx status
        then mkRun (Normal tt)
               (set_localXmlData (Some text)
                  (set_xmlBaseUrl (Some (baseUrl c))
                     (set_localXmlData (Some text)
                        (set_xmlPath (Some (defaultXmlPath (baseUrl c)))
                           c))))
               [EvWrite (WXmlPath (defaultXmlPath (baseUrl c)));
                EvXhr GET (defaultXmlPath (baseUrl c))
                  (XhrResponse status text);
                EvWrite (WLocalXmlData (Some text));
                EvWrite (WXmlBaseUrl (baseUrl c));
                EvXhr GET (defaultXmlPath (baseUrl c))
                  (XhrResponse status text);
                EvWrite (WLocalXmlData (Some text))]
        else mkRun (Normal tt)
               (set_xmlBaseUrl (Some (baseUrl c))
                  (set_xmlPath (Some (defaultXmlPath (baseUrl c))) c))
               [EvWrite (WXmlPath (defaultXmlPath (baseUrl c)));
                EvXhr GET (defaultXmlPath (baseUrl c))
                  (XhrResponse status text);
                ev_fetch_refused (defaultXmlPath (baseUrl c)) status;
                EvWrite (WXmlBaseUrl (baseUrl c));
                EvXhr GET (defaultXmlPath (baseUrl c))
                  (XhrResponse status text);
                ev_fetch_refused (defaultXmlPath (baseUrl c)) status]
    | XhrOpenThrows err =>
        mkRun (Normal tt)
          (set_xmlBaseUrl (Some (baseUrl c))
             (set_xmlPath (Some (defaultXmlPath (baseUrl c))) c))
          [EvWrite (WXmlPath (defaultXmlPath (baseUrl c)));
           EvXhr GET (defaultXmlPath (baseUrl c)) (XhrOpenThrows err);
           ev_fetch_threw (defaultXmlPath (baseUrl c)) err;
           EvWrite (WXmlBaseUrl (baseUrl c));
           EvXhr GET (defaultXmlPath (baseUrl c)) (XhrOpenThrows err);
           ev_fetch_threw (defaultXmlPath (baseUrl c)) err]
    | XhrSendThrows err =>
        mkRun (Normal tt)
          (set_xmlBaseUrl (Some (baseUrl c))
             (set_xmlPath (Some (defaultXmlPath (baseUrl c))) c))
          [EvWrite (WXmlPath (defaultXmlPath (baseUrl c)));
           EvXhr GET (defaultXmlPath (baseUrl c)) (XhrSendThrows err);
           ev_fetch_threw (defaultXmlPath (baseUrl c)) err;
           EvWrite (WXmlBaseUrl (baseUrl c));
           EvXhr GET (defaultXmlPath (baseUrl c)) (XhrSendThrows err);
           ev_fetch_threw (defaultXmlPath (baseUrl c)) err]
    end.
Proof.
  intros Hd Hp Hb.
  assert (Hne : truthy (defaultXmlPath (baseUrl c)) = true).
  { unfold defaultXmlPath. destruct (baseUrl c); [discriminate Hb|].
    reflexivity. }
  change (fetchXmlData_depth (S (S d)))
    with (fetchXmlData_calling (fetchXmlData_depth (S d))).
  unfold fetchXmlData_calling, defaultLocation, assign_xmlPath, bind, ret,
    read, assign.
  cbn [result this trace]. rewrite Hd. cbn [result this trace].
  rewrite Hp. cbn [negb result this trace]. rewrite Hb.
  cbn [result this trace].
  rewrite (fetchXmlData_depth_explicit d
             (set_xmlPath (Some (defaultXmlPath (baseUrl c))) c) Hd Hne).
  rewrite (fetchXml_eq
             (set_xmlPath (Some (defaultXmlPath (baseUrl c))) c)
             (defaultXmlPath (baseUrl c)) eq_refl).
  destruct (xhr env GET (defaultXmlPath (baseUrl c)))
    as [err|err|status text] eqn:Hx; [| |destruct (status_2xx status) eqn:Hs];
    cbn [result this trace];
    match goal with
    | |- context [fetchXml env ?c'] =>
        rewrite (fetchXml_eq c' (defaultXmlPath (baseUrl c)) eq_refl)
    end;
    rewrite Hx, ?Hs; reflexivity.
Qed.

(** More room changes nothing. *)
Lemma fetchXmlData_depth_enough (d : nat) (c : Component) :
  fetchXmlData_depth (S (S d)) env c = fetchXmlData env c.
Proof.
  unfold fetchXmlData.
  destruct (truthy_opt (xmlData c)) eqn:Hd.
  - now rewrite !fetchXmlData_depth_inline.
  - destruct (truthy_opt (xmlPath c)) eqn:Hp.
    + now rewrite !fetchXmlData_depth_explicit.
    + destruct (truthy (baseUrl c)) eqn:Hb.
      * now rewrite (fetchXmlData_depth_derived d c Hd Hp Hb),
          (fetchXmlData_depth_derived 0 c Hd Hp Hb).
      * now rewrite !fetchXmlData_depth_nowhere.
Qed.

(** [fetchXmlData] is the call with room for the watcher's. *)
Lemma fetchXmlData_derived (c : Component) :
  fetchXmlData env c = fetchXmlData_depth 2 env c.
Proof. reflexivity. Qed.

End FetchPaths.

(** *** C1: inline data *)

(** C1, as stated, fails on an inline payload that is the empty string: with
    [xmlData = ""] and [baseUrl = "https://x/y"] the method derives the
    default location, requests it, and stores the response, not the inline
    data; the resolved base is set. *)
Lemma C1_empty_inline_data_is_fetched :
  let c := Scenario.configured "https://x/y" None (Some ""%string) in
  let r := fetchXmlData Scenario.xml_ok c in
  xmlData c = Some ""%string /\
  In (GET, "https://x/y/index.xml"%string) (requests (trace r)) /\
  localXmlData (this r) = Some "<xml/>"%string /\
  xmlBaseUrl (this r) = Some "https://x/y"%string /\
  ~ (requests (trace r) = [] /\
     localXmlData (this r) = xmlData c /\
     xmlBaseUrl (this r) = None).
Proof.
  cbv zeta. split; [reflexivity|]. split; [vm_compute; tauto|].
  split; [reflexivity|]. split; [reflexivity|].
  intros (H & _). vm_compute in H. discriminate H.
Qed.

(** C1 (amended): for every configuration whose inline data is a non-empty
    string, whatever [xmlPath] and [baseUrl] are, [fetchXmlData] ends normally,
    makes no request, assigns [localXmlData] the inline data and nothing else:
    [xmlBaseUrl] (and [xmlPath]) are not assigned and keep their values. *)
Theorem C1_inline_data_wins (env : Env) (c : Component) (d : string) :
  xmlData c = Some d -> d <> EmptyString ->
  let r := fetchXmlData env c in
  result r = Normal tt /\
  requests (trace r) = [] /\
  trace r = [EvWrite (WLocalXmlData (Some d))] /\
  localXmlData (this r) = Some d /\
  xmlBaseUrl (this r) = xmlBaseUrl c /\
  this r = set_localXmlData (Some d) c.
Proof.
  intros Hd Hne r. subst r.
  rewrite fetchXmlData_inline.
  - rewrite Hd. cbn. repeat split; reflexivity.
  - rewrite Hd. cbn. now apply truthy_true_iff.
Qed.

Lemma C1_inline_data_wins_witness :
  let c := Scenario.configured "https://x/y" (Some "https://x/z.xml"%string)
             (Some "<a/>"%string) in
  let r := fetchXmlData Scenario.xml_ok c in
  xmlData c = Some "<a/>"%string /\
  requests (trace r) = [] /\
  localXmlData (this r) = Some "<a/>"%string /\
  xmlBaseUrl (this r) = xmlBaseUrl c.
Proof.
  intros c r.
  destruct (C1_inline_data_wins Scenario.xml_ok c "<a/>"%string eq_refl
              ltac:(discriminate)) as (_ & Hq & _ & Hl & Hb & _).
  exact (conj eq_refl (conj Hq (conj Hl Hb))).
Defined.

(** *** The reactions of the fallback import *)

Section ImportSettled.
Variables (env : Env) (c : Component).

Lemma import_settled_loaded :
  import_settled (ImportFulfilled None) env c
  = mkRun (Normal tt) (set_scriptsInjected true c)
      [EvDefineCustomElements; EvWrite (WScriptsInjected true);
       ev_fallback_loaded].
Proof. reflexivity. Qed.

Lemma import_settled_define_throws (err : string) :
  import_settled (ImportFulfilled (Some err)) env c
  = mkRun (Normal tt) c [EvDefineCustomElements; ev_fallback_failed err].
Proof. reflexivity. Qed.

Lemma import_settled_rejected (err : string) :
  import_settled (ImportRejected err) env c
  = mkRun (Normal tt) c [ev_fallback_failed err].
Proof. reflexivity. Qed.

End ImportSettled.

(** Case analysis on the path [injectLidoScripts] takes from [c] in [env];
    each case rewrites the call with its equation. *)
Ltac inject_cases env c :=
  let Hb := fresh "Hb" in
  let Hi := fresh "Hi" in
  let Hx := fresh "Hx" in
  let Hs := fresh "Hs" in
  destruct (truthy (baseUrl c)) eqn:Hb;
    [ destruct (scriptsInjected c) eqn:Hi;
      [ rewrite ?(inject_already env c Hb Hi) in *
      | destruct (xhr env HEAD (scriptCheckUrl (baseUrl c)))
          as [?err|?err|?status ?text] eqn:Hx;
        [ rewrite ?(inject_open_throws env c _ Hb Hi Hx) in *
        | rewrite ?(inject_send_throws env c _ Hb Hi Hx) in *
        | destruct (status_2xx status) eqn:Hs;
          [ rewrite ?(inject_remote env c _ _ Hb Hi Hx Hs) in *
          | rewrite ?(inject_refused env c _ _ Hb Hi Hx Hs) in * ] ] ]
    | rewrite ?(inject_no_base env c Hb) in * ].

Lemma status_2xx_iff (status : Z) :
  status_2xx status = true <-> 200 <= status < 300.
Proof. unfold status_2xx. rewrite andb_true_iff, Z.leb_le, Z.ltb_lt. tauto. Qed.

(** The probe is made exactly by the calls that find a base and no scripts
    injected yet, and its outcome is the server's answer. *)
Lemma probe_performed (env : Env) (c : Component) (m : http_method)
    (u : string) (r : xhr_result) :
  In (EvXhr m u r) (trace (injectLidoScripts env c)) ->
  m = HEAD /\ u = scriptCheckUrl (baseUrl c) /\
  truthy (baseUrl c) = true /\ scriptsInjected c = false /\
  xhr env HEAD (scriptCheckUrl (baseUrl c)) = r.
Proof.
  intros Hin. inject_cases env c; cbn in Hin;
    repeat match goal with
      | H : _ \/ _ |- _ => destruct H
      | H : False |- _ => contradiction
      | H : _ = EvXhr _ _ _ |- _ => try discriminate H; injection H as <- <- <-
      end; repeat split; reflexivity.
Qed.

(** *** C2: the remote scripts *)

(** C2: for every non-empty [baseUrl] on which the probe of
    [<cleanBase>/code/lido-player.esm.js] returns a status in 200..299,
    [injectLidoScripts] ends normally, appends exactly two scripts to the
    head (the module script at the probed URL, then the [nomodule] script at
    [<cleanBase>/code/lido-player.js]), sets [scriptsInjected], and starts no
    import: the attempt run to completion has the same trace and never
    reaches [defineCustomElements].  Here [cleanBase] is the base without its
    trailing slashes, and the two files are the ones the specification calls
    [player.esm.js] and [player.js]. *)
Theorem C2_remote_scripts_injected (env : Env) (c : Component)
    (status : Z) (text : string) :
  baseUrl c <> EmptyString ->
  In (EvXhr HEAD (cleanBase (baseUrl c) ++ "/code/lido-player.esm.js")%string
        (XhrResponse status text))
     (trace (injectLidoScripts env c)) ->
  200 <= status < 300 ->
  let r := injectLidoScripts env c in
  result r = Normal tt /\
  appended (trace r)
  = [ {| script_type := Some "module"%string;
         script_nomodule := false;
         script_src :=
           (cleanBase (baseUrl c) ++ "/code/lido-player.esm.js")%string |};
      {| script_type := None;
         script_nomodule := true;
         script_src :=
           (cleanBase (baseUrl c) ++ "/code/lido-player.js")%string |} ] /\
  scriptsInjected (this r) = true /\
  imports (trace r) = [] /\
  trace (scriptResolution env c) = trace r /\
  ~ In EvDefineCustomElements (trace (scriptResolution env c)).
Proof.
  intros _ Hin Hs r. subst r.
  apply probe_performed in Hin as (_ & _ & Hb & Hi & Hx).
  apply status_2xx_iff in Hs.
  unfold scriptResolution, turn.
  rewrite (inject_remote env c _ _ Hb Hi Hx Hs). cbn.
  repeat split; try reflexivity.
  intros [H|[H|[H|[H|[H|[H|H]]]]]]; try discriminate H. exact H.
Qed.

Lemma C2_remote_scripts_injected_witness :
  let c := Scenario.configured "https://h/p/" None None in
  let r := injectLidoScripts Scenario.scripts_ok c in
  baseUrl c <> EmptyString /\
  200 <= 200 < 300 /\
  appended (trace r)
  = [ {| script_type := Some "module"%string;
         script_nomodule := false;
         script_src := "https://h/p/code/lido-player.esm.js"%string |};
      {| script_type := None;
         script_nomodule := true;
         script_src := "https://h/p/code/lido-player.js"%string |} ] /\
  scriptsInjected (this r) = true /\
  imports (trace r) = [].
Proof.
  intros c r.
  assert (Hne : baseUrl c <> EmptyString) by discriminate.
  assert (Hs : 200 <= 200 < 300) by lia.
  destruct (C2_remote_scripts_injected Scenario.scripts_ok c 200 ""%string
              Hne ltac:(vm_compute; tauto) Hs)
    as (_ & Ha & Hi & Hm & _).
  exact (conj Hne (conj Hs (conj Ha (conj Hi Hm)))).
Defined.

Lemma appended_app (t1 t2 : list event) :
  appended (t1 ++ t2) = appended t1 ++ appended t2.
Proof.
  induction t1 as [|e t1 IH]; [reflexivity|].
  destruct e; cbn; rewrite ?IH; reflexivity.
Qed.

(** *** C3: the probe fails *)

(** C3: for every non-empty [baseUrl] on which the probe returns a status
    outside 200..299 or throws (from [open] or from [send]),
    [injectLidoScripts] ends normally, appends no script, starts the fallback
    import of ["lido-player/loader"] (once) and leaves the component as it
    was, so [scriptsInjected] is still false when the call returns.  If the
    module then loads and [defineCustomElements] returns, the attempt run to
    completion ends with [scriptsInjected] true, still without a script
    appended: the one assignment of the flag is the reaction's, after
    [defineCustomElements]. *)
Theorem C3_probe_failure_falls_back (env : Env) (c : Component)
    (probe : xhr_result) :
  baseUrl c <> EmptyString ->
  In (EvXhr HEAD (scriptCheckUrl (baseUrl c)) probe)
     (trace (injectLidoScripts env c)) ->
  xhr_ok probe = false ->
  let r := injectLidoScripts env c in
  result r = Normal tt /\
  appended (trace r) = [] /\
  imports (trace r) = [loader_specifier] /\
  writes (trace r) = [] /\
  this r = c /\ scriptsInjected (this r) = false /\
  (import_ok (import_module env loader_specifier) = true ->
   let a := scriptResolution env c in
   result a = Normal tt /\
   scriptsInjected (this a) = true /\
   appended (trace a) = [] /\
   trace a
   = trace r ++ [EvDefineCustomElements; EvWrite (WScriptsInjected true);
                 ev_fallback_loaded]).
Proof.
  intros _ Hin Hfail r. subst r.
  apply probe_performed in Hin as (_ & _ & Hb & Hi & Hx).
  assert (Hcall : injectLidoScripts env c
                  = mkRun (Normal tt) c (trace (injectLidoScripts env c)) /\
                  appended (trace (injectLidoScripts env c)) = [] /\
                  imports (trace (injectLidoScripts env c)) = [loader_specifier] /\
                  writes (trace (injectLidoScripts env c)) = []).
  { inject_cases env c; try discriminate;
      try (subst probe; cbn in Hfail; congruence);
      cbn; repeat split; reflexivity. }
  destruct Hcall as (Hcall & Happ & Himp & Hwr).
  unfold scriptResolution, turn.
  remember (trace (injectLidoScripts env c)) as t eqn:Ht. clear Ht.
  rewrite Hcall. cbn [result this trace].
  repeat (split; [reflexivity || assumption|]).
  intros Hok. rewrite Himp. cbn [settle]. unfold bind, ret.
  destruct (import_module env loader_specifier) as [e|[e|]];
    try discriminate Hok.
  rewrite import_settled_loaded. cbn.
  rewrite appended_app, Happ. repeat split; reflexivity.
Qed.

Lemma C3_probe_failure_falls_back_witness :
  let env := Scenario.offline (ImportFulfilled None) in
  let c := Scenario.configured "https://h/p" None None in
  baseUrl c <> EmptyString /\
  xhr_ok (XhrSendThrows "NetworkError") = false /\
  import_ok (import_module env loader_specifier) = true /\
  appended (trace (injectLidoScripts env c)) = [] /\
  imports (trace (injectLidoScripts env c)) = [loader_specifier] /\
  scriptsInjected (this (injectLidoScripts env c)) = false /\
  scriptsInjected (this (scriptResolution env c)) = true.
Proof.
  intros env c.
  assert (Hne : baseUrl c <> EmptyString) by discriminate.
  destruct (C3_probe_failure_falls_back env c (XhrSendThrows "NetworkError")
              Hne ltac:(vm_compute; tauto) eq_refl)
    as (_ & Ha & Hm & _ & _ & Hi & Hfb).
  destruct (Hfb eq_refl) as (_ & Ht & _).
  exact (conj Hne (conj eq_refl (conj eq_refl
           (conj Ha (conj Hm (conj Hi Ht)))))).
Defined.

(** *** C4: [scriptsInjected] only goes from false to true *)

Lemma fetchXml_keeps_scriptsInjected (env : Env) (c : Component) (p : string) :
  xmlPath c = Some p ->
  scriptsInjected (this (fetchXml env c)) = scriptsInjected c.
Proof.
  intros Hp. rewrite (fetchXml_eq env c p Hp).
  destruct (xhr env GET p) as [e|e|status text]; try reflexivity.
  destruct (status_2xx status); reflexivity.
Qed.

Lemma truthy_opt_some (o : option string) :
  truthy_opt o = true -> exists p, o = Some p.
Proof. destruct o as [p|]; [eauto | discriminate]. Qed.

Lemma fetchXmlData_keeps_scriptsInjected (env : Env) (c : Component) :
  scriptsInjected (this (fetchXmlData env c)) = scriptsInjected c.
Proof.
  destruct (truthy_opt (xmlData c)) eqn:Hd.
  - rewrite (fetchXmlData_inline env c Hd). reflexivity.
  - destruct (truthy_opt (xmlPath c)) eqn:Hp.
    + rewrite (fetchXmlData_explicit env c Hd Hp).
      destruct (truthy_opt_some _ Hp) as [p Hp'].
      now apply fetchXml_keeps_scriptsInjected with p.
    + destruct (truthy (baseUrl c)) eqn:Hb.
      * rewrite (fetchXmlData_derived env c),
          (fetchXmlData_depth_derived env 0 c Hd Hp Hb).
        destruct (xhr env GET (defaultXmlPath (baseUrl c)))
          as [e|e|status text]; [| |destruct (status_2xx status)];
          reflexivity.
      * rewrite (fetchXmlData_nowhere env c Hd Hp Hb). reflexivity.
Qed.

Lemma injectLidoScripts_raises_scriptsInjected (env : Env) (c : Component) :
  scriptsInjected c = true ->
  scriptsInjected (this (injectLidoScripts env c)) = true.
Proof.
  intros Ht. inject_cases env c; cbn; congruence.
Qed.

Lemma import_settled_raises_scriptsInjected (env : Env) (c : Component)
    (r : import_result) :
  scriptsInjected c = true ->
  scriptsInjected (this (import_settled r env c)) = true.
Proof.
  intros Ht. destruct r as [e|[e|]]; cbn; congruence.
Qed.

Lemma handle_raises_scriptsInjected (env : Env) (t : trigger) (c : Component) :
  scriptsInjected c = true ->
  scriptsInjected (this (handle t env c)) = true.
Proof.
  intros Ht. destruct t as [|v|v|v]; unfold handle.
  - unfold componentWillLoad, bind.
    pose proof (injectLidoScripts_raises_scriptsInjected env c Ht) as Hi.
    destruct (result (injectLidoScripts env c)); cbn [this]; [|exact Hi].
    now rewrite fetchXmlData_keeps_scriptsInjected.
  - unfold bind, host_sets, onBaseUrlChange. cbn [result this].
    pose proof (injectLidoScripts_raises_scriptsInjected env (set_baseUrl v c) Ht)
      as Hi.
    destruct (result (injectLidoScripts env (set_baseUrl v c))); exact Hi.
  - unfold bind, host_sets, onXmlPathChange. cbn [result this].
    pose proof (fetchXmlData_keeps_scriptsInjected env (set_xmlPath v c)) as Hf.
    destruct (result (fetchXmlData env (set_xmlPath v c))); cbn [this];
      rewrite Hf; exact Ht.
  - exact Ht.
Qed.

Lemma next_raises_scriptsInjected (env : Env) (s : step) (p : Page) :
  scriptsInjected (component p) = true ->
  scriptsInjected (component (next env s p)) = true.
Proof.
  intros Ht. destruct s as [t|]; cbn.
  - now apply handle_raises_scriptsInjected.
  - destruct (pending p) as [|specifier rest]; cbn; [exact Ht|].
    now apply import_settled_raises_scriptsInjected.
Qed.

Lemma history_raises_scriptsInjected (h : list (Env * step)) (p : Page) :
  scriptsInjected (component p) = true ->
  scriptsInjected (component (history h p)) = true.
Proof.
  revert p. induction h as [|[env s] h IH]; intros p Ht; cbn.
  - exact Ht.
  - apply IH. now apply next_raises_scriptsInjected.
Qed.

(** Case analysis on the path [fetchXmlData] takes from [c] in [env]. *)
Ltac fetch_cases env c :=
  let Hd := fresh "Hd" in
  let Hp := fresh "Hp" in
  let Hb := fresh "Hb" in
  let Hg := fresh "Hg" in
  let Hs := fresh "Hs" in
  destruct (truthy_opt (xmlData c)) eqn:Hd;
    [ rewrite ?(fetchXmlData_inline env c Hd) in *
    | destruct (truthy_opt (xmlPath c)) eqn:Hp;
      [ rewrite ?(fetchXmlData_explicit env c Hd Hp) in *;
        let p := fresh "p" in
        let Hp' := fresh "Hpath" in
        destruct (truthy_opt_some _ Hp) as [p Hp'];
        rewrite ?(fetchXml_eq env c p Hp') in *;
        destruct (xhr env GET p) as [?err|?err|?status ?text] eqn:Hg;
        [ | | destruct (status_2xx status) eqn:Hs ]
      | destruct (truthy (baseUrl c)) eqn:Hb;
        [ rewrite ?(fetchXmlData_derived env c) in *;
          rewrite ?(fetchXmlData_depth_derived env 0 c Hd Hp Hb) in *;
          destruct (xhr env GET (defaultXmlPath (baseUrl c)))
            as [?err|?err|?status ?text] eqn:Hg;
          [ | | destruct (status_2xx status) eqn:Hs ]
        | rewrite ?(fetchXmlData_nowhere env c Hd Hp Hb) in * ] ] ].

(** Closing a goal about membership in a concrete trace. *)
Ltac in_trace H :=
  cbn in H;
  repeat match type of H with
    | _ \/ _ => destruct H as [H|H]
    | False => contradiction
    | _ = _ => try discriminate H; injection H as H
    end.

Lemma inject_writes_flag_true (env : Env) (c : Component) (b : bool) :
  In (EvWrite (WScriptsInjected b)) (trace (injectLidoScripts env c)) ->
  b = true.
Proof.
  intros H. inject_cases env c; in_trace H; congruence.
Qed.

Lemma fetch_never_writes_flag (env : Env) (c : Component) (b : bool) :
  ~ In (EvWrite (WScriptsInjected b)) (trace (fetchXmlData env c)).
Proof.
  intros H. fetch_cases env c; in_trace H.
Qed.

Lemma settled_writes_flag_true (env : Env) (c : Component)
    (r : import_result) (b : bool) :
  In (EvWrite (WScriptsInjected b)) (trace (import_settled r env c)) ->
  b = true.
Proof.
  intros H. destruct r as [e|[e|]]; in_trace H; congruence.
Qed.

Lemma handle_writes_flag_true (env : Env) (t : trigger) (c : Component)
    (b : bool) :
  In (EvWrite (WScriptsInjected b)) (trace (handle t env c)) -> b = true.
Proof.
  destruct t as [|v|v|v]; unfold handle.
  - unfold componentWillLoad, bind.
    destruct (result (injectLidoScripts env c)); cbn [trace]; intros H.
    + apply in_app_or in H as [H|H].
      * now apply inject_writes_flag_true in H.
      * now apply fetch_never_writes_flag in H.
    + now apply inject_writes_flag_true in H.
  - unfold bind, host_sets, onBaseUrlChange. cbn [result this trace].
    destruct (result (injectLidoScripts env (set_baseUrl v c)));
      cbn [trace app]; apply inject_writes_flag_true.
  - unfold bind, host_sets, onXmlPathChange. cbn [result this trace].
    destruct (result (fetchXmlData env (set_xmlPath v c)));
      cbn [trace app]; intros H; now apply fetch_never_writes_flag in H.
  - intros [].
Qed.

(** One attempt, by the path of the call and the outcome of the import. *)
Lemma attempt_flag (env : Env) (c : Component) :
  let a := scriptResolution env c in
  (length (filter is_scriptsInjected_write (writes (trace a))) <= 1)%nat /\
  (forall b, In (EvWrite (WScriptsInjected b)) (trace a) -> b = true) /\
  (scriptsInjected c = false ->
   (scriptsInjected (this a) = true <->
    (xhr_ok (xhr env HEAD (scriptCheckUrl (baseUrl c))) = true /\
     appended (trace a) = [scriptEsm (baseUrl c); scriptNoModule (baseUrl c)])
    \/ (imports (trace a) = [loader_specifier] /\
        import_ok (import_module env loader_specifier) = true)) /\
   (scriptsInjected (this a) = false -> writes (trace a) = [])).
Proof.
  unfold scriptResolution, turn.
  inject_cases env c; cbn; unfold bind, ret; cbn;
    try (destruct (import_module env loader_specifier) as [e|[e|]]; cbn);
    (split; [lia|]);
    (split; [intros b H; in_trace H; congruence|]);
    intros Hf; try congruence;
    (split;
     [ split;
       [ intros Ht;
         first [ congruence
               | left; split; [congruence | reflexivity]
               | right; split; [reflexivity | congruence] ]
       | intros [[Hk Ha]|[Hk Ha]]; first [reflexivity | congruence] ]
     | intros Hne; first [reflexivity | congruence] ]).
Qed.

(** C4: [scriptsInjected] starts false.  In one resolution attempt (the call
    of [injectLidoScripts] and the reactions of the import it started) the
    flag is assigned at most once, and only the value true; from false it
    ends true exactly when the remote injection is confirmed (the probe
    answered 2xx and the two scripts were appended) or the fallback succeeded
    (the import was started, the module loaded and [defineCustomElements]
    returned), and an attempt that ends with the flag false never assigned
    it.  No trigger and no import reaction assigns false, and once the flag
    is true it is true after every history of triggers and settled
    imports. *)
Theorem C4_scriptsInjected_monotonic (env : Env) (c : Component)
    (h : list (Env * step)) (p : Page) :
  scriptsInjected initial = false /\
  (let a := scriptResolution env c in
   (length (filter is_scriptsInjected_write (writes (trace a))) <= 1)%nat /\
   (forall b, In (EvWrite (WScriptsInjected b)) (trace a) -> b = true) /\
   (scriptsInjected c = false ->
    (scriptsInjected (this a) = true <->
     (xhr_ok (xhr env HEAD (scriptCheckUrl (baseUrl c))) = true /\
      appended (trace a)
      = [scriptEsm (baseUrl c); scriptNoModule (baseUrl c)])
     \/ (imports (trace a) = [loader_specifier] /\
         import_ok (import_module env loader_specifier) = true)) /\
    (scriptsInjected (this a) = false -> writes (trace a) = []))) /\
  (forall t b,
     In (EvWrite (WScriptsInjected b)) (trace (handle t env c)) -> b = true) /\
  (forall r b,
     In (EvWrite (WScriptsInjected b)) (trace (import_settled r env c)) ->
     b = true) /\
  (scriptsInjected (component p) = true ->
   scriptsInjected (component (history h p)) = true).
Proof.
  split; [reflexivity|].
  split; [exact (attempt_flag env c)|].
  split; [intros t b; apply handle_writes_flag_true|].
  split; [intros r b; apply settled_writes_flag_true|].
  apply history_raises_scriptsInjected.
Qed.

(** With the remote scripts injected at load, the flag survives a change to
    an empty base whose fallback import is rejected, and a change to a base
    whose probe fails. *)
Lemma C4_scriptsInjected_monotonic_witness :
  let p := {| component := Scenario.configured "https://h/p" None None;
              pending := [] |} in
  let h1 := [(Scenario.scripts_ok, Trigger Load)] in
  let h2 := [(Scenario.offline (ImportRejected "gone"),
              Trigger (BaseUrlChanged ""));
             (Scenario.offline (ImportRejected "gone"), SettleNext);
             (Scenario.offline (ImportRejected "gone"),
              Trigger (BaseUrlChanged "https://q"));
             (Scenario.offline (ImportRejected "gone"), SettleNext)] in
  scriptsInjected (component (history h1 p)) = true /\
  scriptsInjected (component (history h2 (history h1 p))) = true.
Proof.
  intros p h1 h2.
  assert (H1 : scriptsInjected (component (history h1 p)) = true)
    by reflexivity.
  destruct (C4_scriptsInjected_monotonic Scenario.scripts_ok initial h2
              (history h1 p)) as (_ & _ & _ & _ & Hm).
  exact (conj H1 (Hm H1)).
Defined.

(** *** C5: what a rerun of [fetchXmlData] keeps *)




(** *** C6: no error leaves the component *)

Lemma inject_normal (env : Env) (c : Component) :
  result (injectLidoScripts env c) = Normal tt.
Proof. inject_cases env c; reflexivity. Qed.

Lemma fetch_normal (env : Env) (c : Component) :
  result (fetchXmlData env c) = Normal tt.
Proof. fetch_cases env c; reflexivity. Qed.

Lemma settled_normal (env : Env) (c : Component) (r : import_result) :
  result (import_settled r env c) = Normal tt.
Proof. destruct r as [e|[e|]]; reflexivity. Qed.

Lemma settle_normal (env : Env) (started : list string) (c : Component) :
  result (settle started env c) = Normal tt.
Proof.
  revert c. induction started as [|s rest IH]; intros c; [reflexivity|].
  cbn [settle]. unfold bind. rewrite settled_normal. cbn [result]. apply IH.
Qed.

Lemma componentWillLoad_normal (env : Env) (c : Component) :
  result (componentWillLoad env c) = Normal tt.
Proof.
  unfold componentWillLoad, bind. rewrite inject_normal. cbn [result].
  apply fetch_normal.
Qed.

Lemma componentWillLoad_trace (env : Env) (c : Component) :
  trace (componentWillLoad env c)
  = trace (injectLidoScripts env c)
      ++ trace (fetchXmlData env (this (injectLidoScripts env c))).
Proof.
  unfold componentWillLoad, bind. rewrite inject_normal. reflexivity.
Qed.

Lemma handle_normal (env : Env) (t : trigger) (c : Component) :
  result (handle t env c) = Normal tt.
Proof.
  destruct t as [|v|v|v]; unfold handle.
  - apply componentWillLoad_normal.
  - unfold bind, host_sets, onBaseUrlChange. cbn [result this].
    apply inject_normal.
  - unfold bind, host_sets, onXmlPathChange. cbn [result this].
    apply fetch_normal.
  - reflexivity.
Qed.

Lemma turn_normal (env : Env) (call : M unit) (c : Component) :
  result (call env c) = Normal tt -> result (turn call env c) = Normal tt.
Proof.
  intros H. unfold turn. cbn [result]. rewrite H. apply settle_normal.
Qed.

Lemma reported_app_l (t t' : list event) m u res :
  reported t m u res -> reported (t ++ t') m u res.
Proof.
  unfold reported. destruct m, res; try tauto;
    intuition (auto using in_or_app).
Qed.

Lemma reported_app_r (t t' : list event) m u res :
  reported t' m u res -> reported (t ++ t') m u res.
Proof.
  unfold reported. destruct m, res; try tauto;
    intuition (auto using in_or_app).
Qed.

Lemma inject_reported (env : Env) (c : Component) m u res :
  In (EvXhr m u res) (trace (injectLidoScripts env c)) ->
  reported (trace (injectLidoScripts env c)) m u res.
Proof.
  intros H. inject_cases env c; in_trace H; subst; cbn;
    try congruence; auto 10.
Qed.

Lemma fetch_reported (env : Env) (c : Component) m u res :
  In (EvXhr m u res) (trace (fetchXmlData env c)) ->
  reported (trace (fetchXmlData env c)) m u res.
Proof.
  intros H. fetch_cases env c; in_trace H; subst; cbn;
    try congruence; auto 10.
Qed.

Lemma settled_reported (env : Env) (c : Component) (r : import_result) :
  import_reported (trace (import_settled r env c)) r.
Proof. destruct r as [e|[e|]]; cbn; auto. Qed.

Lemma settled_no_request (env : Env) (c : Component) (r : import_result)
    m u res :
  ~ In (EvXhr m u res) (trace (import_settled r env c)).
Proof. intros H. destruct r as [e|[e|]]; in_trace H. Qed.

Lemma fetch_starts_no_import (env : Env) (c : Component) :
  imports (trace (fetchXmlData env c)) = [].
Proof. fetch_cases env c; reflexivity. Qed.

Lemma imports_app (t1 t2 : list event) :
  imports (t1 ++ t2) = imports t1 ++ imports t2.
Proof.
  induction t1 as [|e t1 IH]; [reflexivity|].
  destruct e; cbn; rewrite ?IH; reflexivity.
Qed.

(** A call starts at most the one import of the loader. *)
Lemma inject_imports (env : Env) (c : Component) :
  imports (trace (injectLidoScripts env c)) = [] \/
  imports (trace (injectLidoScripts env c)) = [loader_specifier].
Proof. inject_cases env c; cbn; auto. Qed.

Lemma handle_trace (env : Env) (t : trigger) (c : Component) :
  trace (handle t env c)
  = match t with
    | Load =>
        trace (injectLidoScripts env c)
          ++ trace (fetchXmlData env (this (injectLidoScripts env c)))
    | BaseUrlChanged v => trace (injectLidoScripts env (set_baseUrl v c))
    | XmlPathChanged v => trace (fetchXmlData env (set_xmlPath v c))
    | XmlDataChanged _ => []
    end.
Proof.
  destruct t as [|v|v|v]; unfold handle.
  - apply componentWillLoad_trace.
  - unfold bind, host_sets, onBaseUrlChange. reflexivity.
  - unfold bind, host_sets, onXmlPathChange. reflexivity.
  - reflexivity.
Qed.

Lemma handle_reported (env : Env) (t : trigger) (c : Component) m u res :
  In (EvXhr m u res) (trace (handle t env c)) ->
  reported (trace (handle t env c)) m u res.
Proof.
  rewrite handle_trace. destruct t as [|v|v|v].
  - intros H. apply in_app_or in H as [H|H].
    + apply reported_app_l. now apply inject_reported.
    + apply reported_app_r. now apply fetch_reported.
  - apply inject_reported.
  - apply fetch_reported.
  - intros [].
Qed.

Lemma handle_imports (env : Env) (t : trigger) (c : Component) :
  imports (trace (handle t env c)) = [] \/
  imports (trace (handle t env c)) = [loader_specifier].
Proof.
  rewrite handle_trace. destruct t as [|v|v|v].
  - rewrite imports_app, fetch_starts_no_import, app_nil_r.
    apply inject_imports.
  - apply inject_imports.
  - left. apply fetch_starts_no_import.
  - now left.
Qed.

Lemma imports_nil (t : list event) (s : string) :
  imports t = [] -> ~ In (EvImport s) t.
Proof.
  induction t as [|e t IH]; intros Hn H; [exact H|].
  destruct e; cbn in Hn; try discriminate Hn;
    (destruct H as [H|H]; [discriminate H | exact (IH Hn H)]).
Qed.

Lemma settle_trace_one (env : Env) (c : Component) (s : string) :
  trace (settle [s] env c)
  = trace (import_settled (import_module env s) env c).
Proof.
  cbn [settle]. unfold bind. rewrite settled_normal. cbn. apply app_nil_r.
Qed.

(** C6: whatever the network and the module loader do (a request answered
    with any status, [open] or [send] throwing, the import rejected,
    [defineCustomElements] throwing), [injectLidoScripts], [fetchXmlData],
    [componentWillLoad], every trigger and the reactions of the import end
    normally: nothing is thrown to the caller and no rejection is left
    unhandled.  In the trace of a trigger run to completion, every request
    that did not answer 2xx is reported by a console warning, and a fallback
    import that failed by a console error. *)
Theorem C6_errors_are_caught_and_logged (env : Env) (c : Component) :
  result (injectLidoScripts env c) = Normal tt /\
  result (fetchXmlData env c) = Normal tt /\
  result (componentWillLoad env c) = Normal tt /\
  (forall r, result (import_settled r env c) = Normal tt) /\
  (forall t,
     let l := turn (handle t) env c in
     result l = Normal tt /\
     (forall m u res,
        In (EvXhr m u res) (trace l) -> reported (trace l) m u res) /\
     (In (EvImport loader_specifier) (trace l) ->
      import_reported (trace l) (import_module env loader_specifier))).
Proof.
  split; [apply inject_normal|]. split; [apply fetch_normal|].
  split; [apply componentWillLoad_normal|].
  split; [intros r; apply settled_normal|].
  intros t l. subst l. split; [apply turn_normal, handle_normal|].
  unfold turn. cbn [trace].
  destruct (handle_imports env t c) as [Hn|Hl]; rewrite ?Hn, ?Hl.
  - cbn [settle ret trace]. rewrite app_nil_r. split.
    + apply handle_reported.
    + intros H. now apply imports_nil in H.
  - rewrite settle_trace_one. split.
    + intros m u res H. apply in_app_or in H as [H|H].
      * apply reported_app_l. now apply handle_reported.
      * now apply settled_no_request in H.
    + intros _.
      pose proof (settled_reported env (this (handle t env c))
                    (import_module env loader_specifier)) as Hr.
      destruct (import_module env loader_specifier) as [e|[e|]]; cbn in *;
        auto using in_or_app.
Qed.

(** With no base and an import that is rejected, the load ends normally, the
    flag stays false and the error is on the console. *)
Lemma C6_errors_are_caught_and_logged_witness :
  let env := Scenario.offline (ImportRejected "load failed") in
  let l := turn (handle Load) env initial in
  result l = Normal tt /\
  scriptsInjected (this l) = false /\
  In (ev_fallback_failed "load failed") (trace l).
Proof.
  intros env l.
  destruct (C6_errors_are_caught_and_logged env initial)
    as (_ & _ & _ & _ & Hl).
  destruct (Hl Load) as (Hn & _ & Hi).
  exact (conj Hn (conj eq_refl (Hi ltac:(vm_compute; tauto)))).
Defined.

(** *** C7: the default location *)

(** C7: with no [xmlPath] (undefined, or empty), no inline data in use and
    [baseUrl = "https://x/y"], [fetchXmlData] derives the location
    ["https://x/y/index.xml"] and the base ["https://x/y"]: every request is
    a GET of the derived location, and both fields hold these values when
    the method returns.  The base is not set before fetching, though.  The
    assignment of the watched [xmlPath] runs [onXmlPathChange], so the
    derived location is requested a first time, and the answer handled,
    while [xmlBaseUrl] is still what it was; then [xmlBaseUrl] is assigned
    and the method sends the request it was written to send, the same GET
    again. *)
Theorem C7_default_location_fetched_before_base (env : Env) (c : Component) :
  truthy_opt (xmlData c) = false ->
  truthy_opt (xmlPath c) = false ->
  baseUrl c = "https://x/y"%string ->
  let r := fetchXmlData env c in
  let get := EvXhr GET "https://x/y/index.xml"
               (xhr env GET "https://x/y/index.xml"%string) in
  (exists handled handled',
     trace r
     = [EvWrite (WXmlPath "https://x/y/index.xml"); get; handled;
        EvWrite (WXmlBaseUrl "https://x/y"); get; handled'] /\
     requests [handled; handled'] = [] /\
     filter is_xmlBaseUrl_write (writes [handled; handled']) = []) /\
  requests (trace r)
  = [(GET, "https://x/y/index.xml"%string);
     (GET, "https://x/y/index.xml"%string)] /\
  xmlPath (this r) = Some "https://x/y/index.xml"%string /\
  xmlBaseUrl (this r) = Some "https://x/y"%string.
Proof.
  intros Hd Hp Hbase r get. subst r get.
  assert (Hb : truthy (baseUrl c) = true) by (rewrite Hbase; reflexivity).
  rewrite (fetchXmlData_derived env c),
    (fetchXmlData_depth_derived env 0 c Hd Hp Hb).
  rewrite Hbase.
  change (defaultXmlPath "https://x/y") with "https://x/y/index.xml"%string.
  destruct (xhr env GET "https://x/y/index.xml"%string)
    as [e|e|status text]; [| |destruct (status_2xx status)];
    (split; [do 2 eexists; split; [reflexivity|split; reflexivity]|]);
    (split; [reflexivity|split; reflexivity]).
Qed.

(** On a fresh component with this base and a server that has the file, the
    first GET is sent, and its text stored, before [xmlBaseUrl] is
    assigned. *)
Lemma C7_default_location_fetched_before_base_witness :
  let c := Scenario.configured "https://x/y" None None in
  let r := fetchXmlData Scenario.xml_ok c in
  truthy_opt (xmlData c) = false /\
  truthy_opt (xmlPath c) = false /\
  baseUrl c = "https://x/y"%string /\
  xmlBaseUrl c = None /\
  trace r
  = [EvWrite (WXmlPath "https://x/y/index.xml");
     EvXhr GET "https://x/y/index.xml" (XhrResponse 200 "<xml/>");
     EvWrite (WLocalXmlData (Some "<xml/>"%string));
     EvWrite (WXmlBaseUrl "https://x/y");
     EvXhr GET "https://x/y/index.xml" (XhrResponse 200 "<xml/>");
     EvWrite (WLocalXmlData (Some "<xml/>"%string))] /\
  requests (trace r)
  = [(GET, "https://x/y/index.xml"%string);
     (GET, "https://x/y/index.xml"%string)] /\
  xmlBaseUrl (this r) = Some "https://x/y"%string.
Proof.
  intros c r.
  destruct (C7_default_location_fetched_before_base Scenario.xml_ok c
              eq_refl eq_refl eq_refl) as (_ & Hq & _ & Hb).
  exact (conj eq_refl (conj eq_refl (conj eq_refl (conj eq_refl
           (conj eq_refl (conj Hq Hb)))))).
Defined.

(** *** C8: inline data that is the empty string *)

(** [fetchXmlData] looks at falsy inline data only to test it. *)
Lemma fetch_without_inline_data (env : Env) (c : Component)
    (d : option string) :
  truthy_opt (xmlData c) = false -> truthy_opt d = false ->
  let r := fetchXmlData env c in
  let r' := fetchXmlData env (set_xmlData d c) in
  result r' = result r /\ trace r' = trace r /\
  localXmlData (this r') = localXmlData (this r) /\
  xmlPath (this r') = xmlPath (this r) /\
  xmlBaseUrl (this r') = xmlBaseUrl (this r) /\
  baseUrl (this r') = baseUrl (this r) /\
  scriptsInjected (this r') = scriptsInjected (this r) /\
  xmlData (this r') = d.
Proof.
  intros Hc Hd r r'. subst r r'.
  assert (Hd' : truthy_opt (xmlData (set_xmlData d c)) = false) by exact Hd.
  destruct (truthy_opt (xmlPath c)) eqn:Hp.
  - destruct (truthy_opt_some _ Hp) as [p Hp'].
    rewrite (fetchXmlData_explicit env c Hc Hp).
    rewrite (fetchXmlData_explicit env (set_xmlData d c) Hd' Hp).
    rewrite (fetchXml_eq env c p Hp').
    rewrite (fetchXml_eq env (set_xmlData d c) p Hp').
    destruct (xhr env GET p) as [e|e|status text];
      [| |destruct (status_2xx status)]; cbn; repeat split; reflexivity.
  - destruct (truthy (baseUrl c)) eqn:Hb.
    + rewrite (fetchXmlData_derived env c),
        (fetchXmlData_depth_derived env 0 c Hc Hp Hb).
      rewrite (fetchXmlData_derived env (set_xmlData d c)),
        (fetchXmlData_depth_derived env 0 (set_xmlData d c) Hd' Hp Hb).
      cbn [baseUrl set_xmlData].
      destruct (xhr env GET (defaultXmlPath (baseUrl c))) as [e|e|status text];
        [| |destruct (status_2xx status)]; cbn; repeat split; reflexivity.
    + rewrite (fetchXmlData_nowhere env c Hc Hp Hb).
      rewrite (fetchXmlData_nowhere env (set_xmlData d c) Hd' Hp Hb).
      cbn. repeat split; reflexivity.
Qed.

(** C8: when [xmlData] is the empty string, [fetchXmlData] does what it does
    when [xmlData] is undefined: same completion, same trace, same fields
    (but [xmlData] itself, which it leaves empty).  The inline branch is not
    taken (the trace is not the single assignment of the empty string to
    [localXmlData]); instead the method requests the explicit location when
    there is one, derives the default location and requests it, and nothing
    else, when there is a base only, and does nothing when there is
    neither. *)
Theorem C8_empty_inline_data_is_absent (env : Env) (c : Component) :
  xmlData c = Some EmptyString ->
  let r := fetchXmlData env c in
  let r0 := fetchXmlData env (set_xmlData None c) in
  (result r = result r0 /\ trace r = trace r0 /\
   localXmlData (this r) = localXmlData (this r0) /\
   xmlPath (this r) = xmlPath (this r0) /\
   xmlBaseUrl (this r) = xmlBaseUrl (this r0) /\
   xmlData (this r) = Some EmptyString) /\
  trace r <> [EvWrite (WLocalXmlData (Some EmptyString))] /\
  (forall p, xmlPath c = Some p -> p <> EmptyString ->
     requests (trace r) = [(GET, p)]) /\
  (truthy_opt (xmlPath c) = false -> baseUrl c <> EmptyString ->
   In (GET, defaultXmlPath (baseUrl c)) (requests (trace r)) /\
   (forall q, In q (requests (trace r)) ->
      q = (GET, defaultXmlPath (baseUrl c))) /\
   xmlPath (this r) = Some (defaultXmlPath (baseUrl c)) /\
   xmlBaseUrl (this r) = Some (baseUrl c)) /\
  (truthy_opt (xmlPath c) = false -> baseUrl c = EmptyString ->
   trace r = [] /\ localXmlData (this r) = localXmlData c).
Proof.
  intros Hx r r0. subst r r0.
  assert (Hd : truthy_opt (xmlData c) = false) by (rewrite Hx; reflexivity).
  split.
  { pose proof (fetch_without_inline_data env c None Hd eq_refl) as H0.
    cbv zeta in H0.
    destruct H0 as (Hr & Ht & Hl & Hp & Hb & _ & _ & _).
    rewrite Hr, Ht, Hl, Hp, Hb. repeat split; try reflexivity.
    fetch_cases env c; try discriminate; cbn; exact Hx. }
  split.
  { fetch_cases env c; try discriminate; cbn; discriminate. }
  split.
  { intros p Hp Hne. apply truthy_true_iff in Hne.
    assert (Ht : truthy_opt (xmlPath c) = true) by (rewrite Hp; exact Hne).
    fetch_cases env c; try congruence;
      match goal with
      | H1 : xmlPath c = Some ?q, H2 : xmlPath c = Some p |- _ =>
          assert (q = p) by congruence; subst q
      end; reflexivity. }
  split.
  { intros Hp Hb. apply truthy_true_iff in Hb.
    fetch_cases env c; try congruence; cbn;
      (split; [auto|]);
      (split; [intros q [H|[H|[]]]; symmetry; exact H|]);
      split; reflexivity. }
  intros Hp Hb. apply truthy_false_iff in Hb.
  fetch_cases env c; try congruence; cbn; split; reflexivity.
Qed.

Lemma C8_empty_inline_data_is_absent_witness :
  let c := Scenario.configured "https://x/y" None (Some EmptyString) in
  let r := fetchXmlData Scenario.xml_ok c in
  xmlData c = Some EmptyString /\
  trace r <> [EvWrite (WLocalXmlData (Some EmptyString))] /\
  In (GET, "https://x/y/index.xml"%string) (requests (trace r)) /\
  xmlBaseUrl (this r) = Some "https://x/y"%string.
Proof.
  intros c r.
  destruct (C8_empty_inline_data_is_absent Scenario.xml_ok c eq_refl)
    as (_ & Hn & _ & Hdef & _).
  destruct (Hdef eq_refl ltac:(discriminate)) as (Hq & _ & _ & Hb).
  exact (conj eq_refl (conj Hn (conj Hq Hb))).
Defined.

(** *** C9: trailing slashes *)

Lemma all_slashes_snoc (s : string) :
  all_slashes (s ++ "/") = all_slashes s.
Proof.
  induction s as [|a r IH]; [reflexivity|].
  change (String a r ++ "/")%string with (String a (r ++ "/")).
  cbn. now rewrite IH.
Qed.

(** A slash added at the end is removed with the others. *)
Lemma replace_trailing_slashes_snoc (s : string) :
  replace_trailing_slashes (s ++ "/") = replace_trailing_slashes s.
Proof.
  induction s as [|a r IH]; [reflexivity|].
  change (String a r ++ "/")%string with (String a (r ++ "/")).
  cbn. rewrite all_slashes_snoc, IH. reflexivity.
Qed.

Lemma replace_trailing_slashes_empty (s : string) :
  replace_trailing_slashes s = EmptyString -> all_slashes s = true.
Proof.
  destruct s as [|a r]; [reflexivity|].
  cbn. destruct (is_slash a && all_slashes r); [reflexivity | discriminate].
Qed.

(** The result has no slash at its end. *)
Lemma replace_trailing_slashes_clean (s : string) :
  ends_with_slash (replace_trailing_slashes s) = false.
Proof.
  induction s as [|a r IH]; [reflexivity|].
  cbn [replace_trailing_slashes slashes_to_end all_slashes].
  destruct (is_slash a && all_slashes r) eqn:Hall; [reflexivity|].
  cbn [ends_with_slash].
  destruct (replace_trailing_slashes r) as [|a' r'] eqn:Hr; [|exact IH].
  apply replace_trailing_slashes_empty in Hr. rewrite Hr, andb_true_r in Hall.
  exact Hall.
Qed.

(** Only slashes are removed, and only from the end. *)
Lemma replace_trailing_slashes_spec (s : string) :
  exists tail,
    s = (replace_trailing_slashes s ++ tail)%string /\
    all_slashes tail = true.
Proof.
  induction s as [|a r (tail & IH & Hall)].
  - exists EmptyString. split; reflexivity.
  - cbn [replace_trailing_slashes slashes_to_end all_slashes].
    destruct (is_slash a && all_slashes r) eqn:Hs.
    + exists (String a r). split; [reflexivity | exact Hs].
    + exists tail. split; [|exact Hall].
      change (String a (replace_trailing_slashes r) ++ tail)%string
        with (String a (replace_trailing_slashes r ++ tail)).
      now rewrite <- IH.
Qed.

Lemma ends_with_slash_snoc (s : string) : ends_with_slash (s ++ "/") = true.
Proof.
  induction s as [|a r IH]; [reflexivity|].
  change (String a r ++ "/")%string with (String a (r ++ "/")).
  cbn [ends_with_slash]. destruct (r ++ "/")%string eqn:E; [|exact IH].
  destruct r; discriminate E.
Qed.

Lemma append_assoc (a b c : string) :
  ((a ++ b) ++ c = a ++ (b ++ c))%string.
Proof.
  induction a as [|x a IH]; [reflexivity|].
  change (String x ((a ++ b) ++ c) = String x (a ++ (b ++ c)))%string.
  now rewrite IH.
Qed.

(** C9: for a [baseUrl] that ends in a slash, [b ++ "/"]: script resolution
    builds its URLs on the base without its trailing slashes, which is also
    [b] without its own ([cleanBase] has no slash at its end and differs from
    the base by a run of slashes), and the probe, when made, goes to
    [cleanBase ++ "/code/lido-player.esm.js"]; content resolution, when it
    derives the default, requests the raw [b ++ "//index.xml"] and nothing
    else, stores it in [xmlPath], and sets [xmlBaseUrl] to the base with its
    slash. *)
Theorem C9_slashes_stripped_for_scripts_only (env : Env) (c : Component)
    (b : string) :
  baseUrl c = (b ++ "/")%string ->
  (cleanBase (baseUrl c) = cleanBase b /\
   ends_with_slash (cleanBase (baseUrl c)) = false /\
   (exists tail, baseUrl c = (cleanBase (baseUrl c) ++ tail)%string /\
                 all_slashes tail = true) /\
   scriptCheckUrl (baseUrl c)
   = (cleanBase b ++ "/code/lido-player.esm.js")%string /\
   (scriptsInjected c = false ->
    requests (trace (injectLidoScripts env c))
    = [(HEAD, (cleanBase b ++ "/code/lido-player.esm.js")%string)])) /\
  (truthy_opt (xmlData c) = false -> truthy_opt (xmlPath c) = false ->
   let r := fetchXmlData env c in
   In (GET, (b ++ "//index.xml")%string) (requests (trace r)) /\
   (forall q, In q (requests (trace r)) ->
      q = (GET, (b ++ "//index.xml")%string)) /\
   xmlPath (this r) = Some (b ++ "//index.xml")%string /\
   xmlBaseUrl (this r) = Some (b ++ "/")%string /\
   ends_with_slash (b ++ "/") = true).
Proof.
  intros Hbase.
  assert (Hclean : cleanBase (baseUrl c) = cleanBase b).
  { rewrite Hbase. apply replace_trailing_slashes_snoc. }
  assert (Hb : truthy (baseUrl c) = true).
  { rewrite Hbase. destruct b; reflexivity. }
  split.
  - split; [exact Hclean|].
    split; [apply replace_trailing_slashes_clean|].
    split; [apply replace_trailing_slashes_spec|].
    unfold scriptCheckUrl. rewrite Hclean. split; [reflexivity|].
    intros Hi. fold (scriptCheckUrl (baseUrl c)).
    assert (Hu : scriptCheckUrl (baseUrl c)
                 = (cleanBase b ++ "/code/lido-player.esm.js")%string)
      by (unfold scriptCheckUrl; now rewrite Hclean).
    inject_cases env c; try congruence; cbn; now rewrite Hu.
  - intros Hd Hp r. subst r.
    assert (Hdef : defaultXmlPath (baseUrl c) = (b ++ "//index.xml")%string).
    { unfold defaultXmlPath. rewrite Hbase. apply append_assoc. }
    fetch_cases env c; try congruence; cbn; rewrite Hdef, Hbase;
      (split; [auto|]);
      (split; [intros q [H|[H|[]]]; symmetry; exact H|]);
      (split; [reflexivity|]); (split; [reflexivity|]);
      apply ends_with_slash_snoc.
Qed.

Lemma C9_slashes_stripped_for_scripts_only_witness :
  let c := Scenario.configured "https://h/p/" None None in
  baseUrl c = ("https://h/p" ++ "/")%string /\
  cleanBase (baseUrl c) = "https://h/p"%string /\
  requests (trace (injectLidoScripts Scenario.scripts_ok c))
  = [(HEAD, "https://h/p/code/lido-player.esm.js"%string)] /\
  In (GET, "https://h/p//index.xml"%string)
     (requests (trace (fetchXmlData Scenario.scripts_ok c))) /\
  xmlBaseUrl (this (fetchXmlData Scenario.scripts_ok c))
  = Some "https://h/p/"%string.
Proof.
  intros c.
  destruct (C9_slashes_stripped_for_scripts_only Scenario.scripts_ok c
              "https://h/p" eq_refl)
    as ((Hc & _ & _ & _ & Hq) & Hx).
  destruct (Hx eq_refl eq_refl) as (Hg & _ & _ & Hb & _).
  exact (conj eq_refl (conj Hc (conj (Hq eq_refl) (conj Hg Hb)))).
Defined.

(** *** C10: where [xmlBaseUrl] is assigned *)

Lemma inject_keeps_content (env : Env) (c : Component) :
  let c' := this (injectLidoScripts env c) in
  xmlData c' = xmlData c /\ xmlPath c' = xmlPath c /\
  baseUrl c' = baseUrl c /\ xmlBaseUrl c' = xmlBaseUrl c /\
  localXmlData c' = localXmlData c.
Proof. inject_cases env c; cbn; repeat split; reflexivity. Qed.



(** ** Further properties of the component *)

(** *** Frames: what each method leaves alone *)

Lemma inject_frame (env : Env) (c : Component) :
  this (injectLidoScripts env c) = c \/
  (this (injectLidoScripts env c) = set_scriptsInjected true c /\
   scriptsInjected c = false).
Proof. inject_cases env c; cbn; auto. Qed.

Lemma fetch_frame (env : Env) (c : Component) :
  let c' := this (fetchXmlData env c) in
  baseUrl c' = baseUrl c /\ xmlData c' = xmlData c /\
  initialIndex c' = initialIndex c /\ canplay c' = canplay c /\
  height c' = height c /\ scriptsInjected c' = scriptsInjected c.
Proof. fetch_cases env c; cbn; repeat split; reflexivity. Qed.

Lemma settled_frame (env : Env) (c : Component) (r : import_result) :
  this (import_settled r env c) = c \/
  this (import_settled r env c) = set_scriptsInjected true c.
Proof. destruct r as [e|[e|]]; cbn; auto. Qed.

Lemma handle_this (env : Env) (t : trigger) (c : Component) :
  this (handle t env c)
  = match t with
    | Load => this (fetchXmlData env (this (injectLidoScripts env c)))
    | BaseUrlChanged v => this (injectLidoScripts env (set_baseUrl v c))
    | XmlPathChanged v => this (fetchXmlData env (set_xmlPath v c))
    | XmlDataChanged v => set_xmlData v c
    end.
Proof.
  destruct t as [|v|v|v]; unfold handle.
  - unfold componentWillLoad, bind. rewrite inject_normal. reflexivity.
  - unfold bind, host_sets, onBaseUrlChange. reflexivity.
  - unfold bind, host_sets, onXmlPathChange. reflexivity.
  - reflexivity.
Qed.

(** *** The base is empty *)

(** X1: With an empty [baseUrl], [injectLidoScripts] makes no request and appends
    no script: it starts the fallback import, once, and returns with the
    component as it was.  It does so whether or not [scriptsInjected] is
    already set, and the attempt run to completion ends with the flag set
    exactly when it was set before or the fallback succeeds. *)
Theorem empty_base_always_falls_back (env : Env) (c : Component) :
  baseUrl c = EmptyString ->
  let r := injectLidoScripts env c in
  result r = Normal tt /\
  requests (trace r) = [] /\
  appended (trace r) = [] /\
  imports (trace r) = [loader_specifier] /\
  this r = c /\
  requests (trace (scriptResolution env c)) = [] /\
  scriptsInjected (this (scriptResolution env c))
  = scriptsInjected c || import_ok (import_module env loader_specifier).
Proof.
  intros Hb r. subst r. apply truthy_false_iff in Hb.
  unfold scriptResolution, turn. rewrite (inject_no_base env c Hb).
  cbn [result this trace]. cbn. unfold bind, ret.
  destruct (import_module env loader_specifier) as [e|[e|]]; cbn;
    rewrite ?orb_false_r, ?orb_true_r; repeat split; reflexivity.
Qed.

Lemma empty_base_always_falls_back_witness :
  let env := Scenario.scripts_ok in
  let c := set_scriptsInjected true initial in
  baseUrl c = EmptyString /\
  requests (trace (injectLidoScripts env c)) = [] /\
  imports (trace (injectLidoScripts env c)) = [loader_specifier] /\
  scriptsInjected (this (scriptResolution env c)) = true.
Proof.
  intros env c.
  destruct (empty_base_always_falls_back env c eq_refl)
    as (_ & Hq & _ & Hm & _ & _ & Hf).
  exact (conj eq_refl (conj Hq (conj Hm Hf))).
Defined.

(** *** The scripts are injected already *)

(** X2: Once an attempt for a non-empty base has ended with [scriptsInjected]
    set, a further attempt for that component, against any server and
    loader, does nothing but log the call: no request, no script, no import,
    and the component is unchanged. *)
Theorem scripts_are_injected_once (env env' : Env) (c : Component) :
  baseUrl c <> EmptyString ->
  scriptsInjected (this (scriptResolution env c)) = true ->
  let c1 := this (scriptResolution env c) in
  let r := scriptResolution env' c1 in
  result r = Normal tt /\
  trace r = [ev_called (baseUrl c)] /\
  requests (trace r) = [] /\ appended (trace r) = [] /\
  imports (trace r) = [] /\
  this r = c1.
Proof.
  intros Hb Hflag c1 r. subst r.
  apply truthy_true_iff in Hb.
  assert (Hbase : baseUrl c1 = baseUrl c).
  { subst c1. unfold scriptResolution, turn. cbn [this].
    inject_cases env c; try discriminate; cbn; unfold bind, ret;
      try (destruct (import_module env loader_specifier) as [e|[e|]]);
      reflexivity. }
  assert (Hb1 : truthy (baseUrl c1) = true) by (rewrite Hbase; exact Hb).
  fold c1 in Hflag. clearbody c1.
  unfold scriptResolution, turn. rewrite (inject_already env' c1 Hb1 Hflag).
  rewrite Hbase. cbn. repeat split; reflexivity.
Qed.

Lemma scripts_are_injected_once_witness :
  let c := Scenario.configured "https://h/p" None None in
  let c1 := this (scriptResolution Scenario.scripts_ok c) in
  let r := scriptResolution Scenario.scripts_ok c1 in
  baseUrl c <> EmptyString /\
  scriptsInjected c1 = true /\
  requests (trace r) = [] /\ appended (trace r) = [] /\ this r = c1.
Proof.
  intros c c1 r.
  assert (Hne : baseUrl c <> EmptyString) by discriminate.
  destruct (scripts_are_injected_once Scenario.scripts_ok Scenario.scripts_ok
              c Hne eq_refl) as (_ & _ & Hq & Ha & _ & Ht).
  exact (conj Hne (conj eq_refl (conj Hq (conj Ha Ht)))).
Defined.

(** *** [doesFileExistSync] *)

(** X3: [doesFileExistSync(url)] never throws and touches nothing of the
    component.  It sends exactly one request, a HEAD of [url], and answers
    true exactly when the request completes with a status from 200 to 299
    (so 199 and 300 are misses); when [open] or [send] throws it answers
    false after one warning that carries the URL and the error. *)
Theorem doesFileExistSync_answers_2xx (env : Env) (c : Component)
    (url : string) :
  let r := doesFileExistSync url env c in
  result r = Normal (xhr_ok (xhr env HEAD url)) /\
  this r = c /\
  requests (trace r) = [(HEAD, url)] /\
  writes (trace r) = [] /\ appended (trace r) = [] /\
  imports (trace r) = [] /\
  (forall status text,
     xhr env HEAD url = XhrResponse status text ->
     (result r = Normal true <-> 200 <= status <= 299) /\
     trace r = [EvXhr HEAD url (XhrResponse status text)]) /\
  (forall err,
     xhr env HEAD url = XhrOpenThrows err \/
     xhr env HEAD url = XhrSendThrows err ->
     result r = Normal false /\
     trace r = [EvXhr HEAD url (xhr env HEAD url); ev_head_failed url err]).
Proof.
  intros r. subst r. unfold_method. cbn.
  destruct (xhr env HEAD url) as [e|e|status text] eqn:Hx; cbn;
    do 6 (split; [reflexivity|]); split.
  - intros s t H. discriminate H.
  - intros x [H|H]; inversion H; subst; split; reflexivity.
  - intros s t H. discriminate H.
  - intros x [H|H]; inversion H; subst; split; reflexivity.
  - intros s t H. inversion H; subst. split; [|reflexivity].
    split.
    + intros Hn. inversion Hn as [Hs]. apply status_2xx_iff in Hs. lia.
    + intros Hr. f_equal. apply status_2xx_iff. lia.
  - intros x [H|H]; discriminate H.
Qed.

(** *** Nothing to fetch *)

(** X4: With no inline data in use, no [xmlPath] and an empty [baseUrl],
    [fetchXmlData] does nothing at all, and [componentWillLoad] makes no
    request: it only starts the fallback import, and the payload, the
    resolved base and [xmlPath] are what they were, so a fresh component
    renders <lido-home> with [xml-data] and [base-url] unset. *)
Theorem nothing_to_fetch (env : Env) (c : Component) :
  truthy_opt (xmlData c) = false ->
  truthy_opt (xmlPath c) = false ->
  baseUrl c = EmptyString ->
  fetchXmlData env c = mkRun (Normal tt) c [] /\
  (let l := componentWillLoad env c in
   result l = Normal tt /\
   requests (trace l) = [] /\ writes (trace l) = [] /\
   imports (trace l) = [loader_specifier] /\
   this l = c /\
   attr_xml_data (render (this l)) = localXmlData c /\
   attr_base_url (render (this l)) = xmlBaseUrl c).
Proof.
  intros Hd Hp Hb. apply truthy_false_iff in Hb.
  split; [exact (fetchXmlData_nowhere env c Hd Hp Hb)|].
  unfold componentWillLoad, bind. rewrite (inject_no_base env c Hb).
  cbn [result this trace]. rewrite (fetchXmlData_nowhere env c Hd Hp Hb).
  cbn. repeat split; reflexivity.
Qed.

Lemma nothing_to_fetch_witness :
  let l := componentWillLoad (Scenario.offline (ImportFulfilled None))
             initial in
  truthy_opt (xmlData initial) = false /\
  truthy_opt (xmlPath initial) = false /\
  baseUrl initial = EmptyString /\
  requests (trace l) = [] /\
  attr_xml_data (render (this l)) = None /\
  attr_base_url (render (this l)) = None.
Proof.
  intros l.
  destruct (nothing_to_fetch (Scenario.offline (ImportFulfilled None)) initial
              eq_refl eq_refl eq_refl) as (_ & _ & Hq & _ & _ & _ & Hx & Hb).
  exact (conj eq_refl (conj eq_refl (conj eq_refl (conj Hq (conj Hx Hb))))).
Defined.

(** *** An explicit location is fetched as it is *)

(** X5: With no inline data in use and a non-empty [xmlPath] whose GET is
    answered with a 2xx status, [fetchXmlData] sends that one request,
    stores the response text (whatever it is, the empty text included) in
    [localXmlData], which [render] passes as [xml-data], and leaves
    [xmlPath] and [xmlBaseUrl] alone; [baseUrl] plays no part. *)
Theorem explicit_location_is_fetched (env : Env) (c : Component)
    (p : string) (status : Z) (text : string) :
  truthy_opt (xmlData c) = false ->
  xmlPath c = Some p -> p <> EmptyString ->
  xhr env GET p = XhrResponse status text ->
  200 <= status < 300 ->
  let r := fetchXmlData env c in
  result r = Normal tt /\
  trace r = [EvXhr GET p (XhrResponse status text);
             EvWrite (WLocalXmlData (Some text))] /\
  localXmlData (this r) = Some text /\
  attr_xml_data (render (this r)) = Some text /\
  xmlPath (this r) = Some p /\
  xmlBaseUrl (this r) = xmlBaseUrl c /\
  (forall b, trace (fetchXmlData env (set_baseUrl b c)) = trace r).
Proof.
  intros Hd Hp Hne Hx Hs r. subst r.
  apply truthy_true_iff in Hne. apply status_2xx_iff in Hs.
  assert (Hrun : forall c', truthy_opt (xmlData c') = false ->
                   xmlPath c' = Some p ->
                   fetchXmlData env c'
                   = mkRun (Normal tt) (set_localXmlData (Some text) c')
                       [EvXhr GET p (XhrResponse status text);
                        EvWrite (WLocalXmlData (Some text))]).
  { intros c' Hd' Hp'.
    assert (Ht : truthy_opt (xmlPath c') = true) by (rewrite Hp'; exact Hne).
    rewrite (fetchXmlData_explicit env c' Hd' Ht), (fetchXml_eq env c' p Hp').
    rewrite Hx, Hs. reflexivity. }
  rewrite (Hrun c Hd Hp). cbn [result this trace].
  split; [reflexivity|]. split; [reflexivity|]. split; [reflexivity|].
  split; [reflexivity|]. split; [exact Hp|]. split; [reflexivity|].
  intros b. rewrite (Hrun (set_baseUrl b c) Hd Hp). reflexivity.
Qed.

Lemma explicit_location_is_fetched_witness :
  let c := Scenario.configured "https://elsewhere"
             (Some "https://x/y/index.xml"%string) None in
  let r := fetchXmlData Scenario.xml_ok c in
  truthy_opt (xmlData c) = false /\
  200 <= 200 < 300 /\
  requests (trace r) = [(GET, "https://x/y/index.xml"%string)] /\
  localXmlData (this r) = Some "<xml/>"%string /\
  xmlBaseUrl (this r) = None.
Proof.
  intros c r.
  assert (Hs : 200 <= 200 < 300) by lia.
  destruct (explicit_location_is_fetched Scenario.xml_ok c
              "https://x/y/index.xml" 200 "<xml/>" eq_refl eq_refl
              ltac:(discriminate) eq_refl Hs)
    as (_ & Ht & Hl & _ & _ & Hb & _).
  exact (conj eq_refl (conj Hs (conj (f_equal requests Ht) (conj Hl Hb)))).
Defined.

(** *** No request is repeated *)

Lemma requests_app (t1 t2 : list event) :
  requests (t1 ++ t2) = requests t1 ++ requests t2.
Proof.
  induction t1 as [|e t1 IH]; [reflexivity|].
  destruct e; cbn; rewrite ?IH; reflexivity.
Qed.

Lemma settled_requests (env : Env) (c : Component) (r : import_result) :
  requests (trace (import_settled r env c)) = [].
Proof. destruct r as [e|[e|]]; reflexivity. Qed.

Lemma settle_requests (env : Env) (started : list string) (c : Component) :
  requests (trace (settle started env c)) = [].
Proof.
  revert c. induction started as [|s rest IH]; intros c; [reflexivity|].
  cbn [settle]. unfold bind. rewrite settled_normal. cbn [trace].
  rewrite requests_app, settled_requests, IH. reflexivity.
Qed.

Lemma inject_requests (env : Env) (c : Component) :
  requests (trace (injectLidoScripts env c)) = [] \/
  requests (trace (injectLidoScripts env c))
  = [(HEAD, scriptCheckUrl (baseUrl c))].
Proof. inject_cases env c; cbn; auto. Qed.

Lemma fetch_requests (env : Env) (c : Component) :
  requests (trace (fetchXmlData env c)) = [] \/
  exists p,
    xmlPath (this (fetchXmlData env c)) = Some p /\
    (requests (trace (fetchXmlData env c)) = [(GET, p)] \/
     (requests (trace (fetchXmlData env c)) = [(GET, p); (GET, p)] /\
      truthy_opt (xmlPath c) = false)).
Proof.
  fetch_cases env c; cbn; auto; right; eexists;
    (split; [reflexivity || eassumption|]); auto.
Qed.

(** X6: A call of [injectLidoScripts] sends at most one request, the HEAD of
    the script URL.  A call of [fetchXmlData] sends GETs only, all of the
    location it leaves in [xmlPath]: one when [xmlPath] was given, and two
    when it derives the default, the first from the watcher of [xmlPath] and
    the second its own.  The reactions of the imports send none.  So a
    trigger run to completion sends at most one HEAD and two GETs, whatever
    the answers are. *)
Theorem requests_of_a_call (env : Env) (c : Component) :
  (requests (trace (injectLidoScripts env c)) = [] \/
   requests (trace (injectLidoScripts env c))
   = [(HEAD, scriptCheckUrl (baseUrl c))]) /\
  (requests (trace (fetchXmlData env c)) = [] \/
   exists p,
     xmlPath (this (fetchXmlData env c)) = Some p /\
     (requests (trace (fetchXmlData env c)) = [(GET, p)] \/
      (requests (trace (fetchXmlData env c)) = [(GET, p); (GET, p)] /\
       truthy_opt (xmlPath c) = false))) /\
  (truthy_opt (xmlData c) = false -> truthy_opt (xmlPath c) = false ->
   baseUrl c <> EmptyString ->
   requests (trace (fetchXmlData env c))
   = [(GET, defaultXmlPath (baseUrl c)); (GET, defaultXmlPath (baseUrl c))])
  /\
  (forall t,
     (length (requests (trace (turn (handle t) env c))) <= 3)%nat /\
     (length (filter (fun q => method_eqb (fst q) HEAD)
                (requests (trace (turn (handle t) env c)))) <= 1)%nat /\
     (length (filter (fun q => method_eqb (fst q) GET)
                (requests (trace (turn (handle t) env c)))) <= 2)%nat).
Proof.
  split; [apply inject_requests|]. split; [apply fetch_requests|].
  split.
  { intros Hd Hp Hb. apply truthy_true_iff in Hb.
    fetch_cases env c; try congruence; reflexivity. }
  intros t. unfold turn. cbn [trace].
  rewrite requests_app, settle_requests, app_nil_r, handle_trace.
  destruct t as [|v|v|v].
  - rewrite requests_app.
    destruct (inject_requests env c) as [-> | ->];
      destruct (fetch_requests env (this (injectLidoScripts env c)))
        as [-> | (p & _ & [-> | [-> _]])]; cbn; lia.
  - destruct (inject_requests env (set_baseUrl v c)) as [-> | ->]; cbn; lia.
  - destruct (fetch_requests env (set_xmlPath v c))
      as [-> | (p & _ & [-> | [-> _]])]; cbn; lia.
  - cbn. lia.
Qed.

Lemma requests_of_a_call_witness :
  let c := Scenario.configured "https://h/p" None None in
  truthy_opt (xmlData c) = false /\ truthy_opt (xmlPath c) = false /\
  baseUrl c <> EmptyString /\
  requests (trace (fetchXmlData Scenario.scripts_ok c))
  = [(GET, "https://h/p/index.xml"%string);
     (GET, "https://h/p/index.xml"%string)].
Proof.
  intros c.
  assert (Hne : baseUrl c <> EmptyString) by discriminate.
  destruct (requests_of_a_call Scenario.scripts_ok c) as (_ & _ & H & _).
  exact (conj eq_refl (conj eq_refl (conj Hne (H eq_refl eq_refl Hne)))).
Defined.

(** *** The properties that are passed through *)

Lemma handle_passthrough (env : Env) (t : trigger) (c : Component) :
  let c' := this (handle t env c) in
  initialIndex c' = initialIndex c /\ canplay c' = canplay c /\
  height c' = height c.
Proof.
  cbv zeta. rewrite handle_this. destruct t as [|v|v|v].
  - destruct (fetch_frame env (this (injectLidoScripts env c)))
      as (_ & _ & Hi & Hc & Hh & _).
    rewrite Hi, Hc, Hh.
    destruct (inject_frame env c) as [-> | [-> _]]; repeat split; reflexivity.
  - destruct (inject_frame env (set_baseUrl v c)) as [-> | [-> _]];
      repeat split; reflexivity.
  - destruct (fetch_frame env (set_xmlPath v c))
      as (_ & _ & Hi & Hc & Hh & _).
    rewrite Hi, Hc, Hh. repeat split; reflexivity.
  - repeat split; reflexivity.
Qed.

Lemma next_passthrough (env : Env) (s : step) (p : Page) :
  let c := component p in
  let c' := component (next env s p) in
  initialIndex c' = initialIndex c /\ canplay c' = canplay c /\
  height c' = height c.
Proof.
  destruct s as [t|]; cbn [next].
  - apply handle_passthrough.
  - destruct (pending p) as [|s rest]; [repeat split; reflexivity|].
    cbn [component].
    destruct (settled_frame env (component p) (import_module env s))
      as [-> | ->]; repeat split; reflexivity.
Qed.

(** X7: No method, watcher or import reaction assigns [initialIndex], [canplay]
    or [height]: after every history of triggers and settled imports they
    are what the host set, and [render] hands exactly these values to
    <lido-home> as [initial-index], [canplay] and [height]. *)
Theorem passed_through_properties_are_kept (h : list (Env * step))
    (p : Page) :
  let c := component p in
  let c' := component (history h p) in
  initialIndex c' = initialIndex c /\ canplay c' = canplay c /\
  height c' = height c /\
  attr_initial_index (render c') = initialIndex c /\
  attr_canplay (render c') = canplay c /\
  attr_height (render c') = height c.
Proof.
  cbv zeta.
  assert (H : initialIndex (component (history h p))
              = initialIndex (component p) /\
              canplay (component (history h p)) = canplay (component p) /\
              height (component (history h p)) = height (component p)).
  { revert p. induction h as [|[env s] h IH]; intros p; cbn [history].
    - repeat split; reflexivity.
    - destruct (IH (next env s p)) as (Hi & Hc & Hh).
      destruct (next_passthrough env s p) as (Hi' & Hc' & Hh').
      rewrite Hi, Hc, Hh. auto. }
  destruct H as (Hi & Hc & Hh). cbn [render attr_initial_index attr_canplay
                                      attr_height].
  auto 7.
Qed.

(** *** The two resolutions do not depend on each other *)

(** [fetchXmlData] neither reads nor writes [scriptsInjected]. *)
Lemma fetch_after_flag (env : Env) (c : Component) (b : bool) :
  result (fetchXmlData env (set_scriptsInjected b c))
  = result (fetchXmlData env c) /\
  trace (fetchXmlData env (set_scriptsInjected b c))
  = trace (fetchXmlData env c) /\
  this (fetchXmlData env (set_scriptsInjected b c))
  = set_scriptsInjected b (this (fetchXmlData env c)).
Proof.
  destruct (truthy_opt (xmlData c)) eqn:Hd.
  - rewrite (fetchXmlData_inline env c Hd).
    rewrite (fetchXmlData_inline env (set_scriptsInjected b c) Hd).
    repeat split; reflexivity.
  - destruct (truthy_opt (xmlPath c)) eqn:Hp.
    + destruct (truthy_opt_some _ Hp) as [p Hp'].
      rewrite (fetchXmlData_explicit env c Hd Hp).
      rewrite (fetchXmlData_explicit env (set_scriptsInjected b c) Hd Hp).
      rewrite (fetchXml_eq env c p Hp').
      rewrite (fetchXml_eq env (set_scriptsInjected b c) p Hp').
      destruct (xhr env GET p) as [e|e|status text];
        [| |destruct (status_2xx status)]; repeat split; reflexivity.
    + destruct (truthy (baseUrl c)) eqn:Hb.
      * rewrite (fetchXmlData_derived env c),
          (fetchXmlData_depth_derived env 0 c Hd Hp Hb).
        rewrite (fetchXmlData_derived env (set_scriptsInjected b c)),
          (fetchXmlData_depth_derived env 0 (set_scriptsInjected b c)
             Hd Hp Hb).
        cbn [baseUrl set_scriptsInjected].
        destruct (xhr env GET (defaultXmlPath (baseUrl c)))
          as [e|e|status text];
          [| |destruct (status_2xx status)]; repeat split; reflexivity.
      * rewrite (fetchXmlData_nowhere env c Hd Hp Hb).
        rewrite (fetchXmlData_nowhere env (set_scriptsInjected b c) Hd Hp Hb).
        repeat split; reflexivity.
Qed.

(** [injectLidoScripts] looks at [baseUrl] and [scriptsInjected] only. *)
Lemma inject_congruence (env : Env) (c c' : Component) :
  baseUrl c' = baseUrl c -> scriptsInjected c' = scriptsInjected c ->
  result (injectLidoScripts env c') = result (injectLidoScripts env c) /\
  trace (injectLidoScripts env c') = trace (injectLidoScripts env c) /\
  ((this (injectLidoScripts env c') = c' /\
    this (injectLidoScripts env c) = c) \/
   (this (injectLidoScripts env c') = set_scriptsInjected true c' /\
    this (injectLidoScripts env c) = set_scriptsInjected true c)).
Proof.
  intros Hbase Hflag.
  destruct (truthy (baseUrl c)) eqn:Hb.
  - destruct (scriptsInjected c) eqn:Hi.
    + rewrite (inject_already env c Hb Hi).
      rewrite (inject_already env c'); [|congruence|congruence].
      rewrite Hbase. cbn. auto.
    + assert (Hb' : truthy (baseUrl c') = true) by congruence.
      assert (Hi' : scriptsInjected c' = false) by congruence.
      destruct (xhr env HEAD (scriptCheckUrl (baseUrl c)))
        as [e|e|status text] eqn:Hx.
      * rewrite (inject_open_throws env c e Hb Hi Hx).
        rewrite (inject_open_throws env c' e Hb' Hi');
          [|rewrite Hbase; exact Hx].
        rewrite Hbase. cbn. auto.
      * rewrite (inject_send_throws env c e Hb Hi Hx).
        rewrite (inject_send_throws env c' e Hb' Hi');
          [|rewrite Hbase; exact Hx].
        rewrite Hbase. cbn. auto.
      * destruct (status_2xx status) eqn:Hs.
        -- rewrite (inject_remote env c status text Hb Hi Hx Hs).
           rewrite (inject_remote env c' status text Hb' Hi');
             [|rewrite Hbase; exact Hx|exact Hs].
           rewrite Hbase. cbn. auto.
        -- rewrite (inject_refused env c status text Hb Hi Hx Hs).
           rewrite (inject_refused env c' status text Hb' Hi');
             [|rewrite Hbase; exact Hx|exact Hs].
           rewrite Hbase. cbn. auto.
  - rewrite (inject_no_base env c Hb).
    rewrite (inject_no_base env c'); [|congruence].
    rewrite Hbase. cbn. auto.
Qed.

(** X8: [componentWillLoad] runs [injectLidoScripts], then [fetchXmlData].  The
    order does not matter: each method emits the events it emits when run
    alone on the component, and running them in the other order ends with
    the same component. *)
Theorem resolutions_are_independent (env : Env) (c : Component) :
  let l := componentWillLoad env c in
  let l' := (fetchXmlData ;; injectLidoScripts) env c in
  result l = Normal tt /\ result l' = Normal tt /\
  trace l = trace (injectLidoScripts env c) ++ trace (fetchXmlData env c) /\
  trace l' = trace (fetchXmlData env c) ++ trace (injectLidoScripts env c) /\
  this l = this l'.
Proof.
  cbv zeta.
  destruct (fetch_frame env c) as (Hbase & _ & _ & _ & _ & Hflag).
  destruct (inject_congruence env c (this (fetchXmlData env c)) Hbase Hflag)
    as (Hr & Ht & Hthis).
  unfold componentWillLoad, bind.
  rewrite inject_normal, fetch_normal. cbn [result this trace].
  rewrite fetch_normal, Hr, inject_normal, Ht.
  split; [reflexivity|]. split; [reflexivity|].
  destruct Hthis as [[H1 H2] | [H1 H2]]; rewrite H1, H2.
  - repeat split; reflexivity.
  - destruct (fetch_after_flag env c true) as (_ & Ht' & Hc').
    rewrite Ht', Hc'. repeat split; reflexivity.
Qed.

(** *** Scripts are appended only after a confirmed probe *)

(** X9: Whatever the server and the component are, a call of
    [injectLidoScripts] either appends nothing, or appends the module script
    and the [nomodule] script of the current base, in this order; and it
    appends them only when the base is non-empty, the flag was not set, and
    the probe answered 2xx, in which case it sets the flag and starts no
    import.  A call that starts the import appends nothing and leaves the
    component alone.  [fetchXmlData] and the import reactions never append a
    script or start an import. *)
Theorem scripts_only_after_confirmed_probe (env : Env) (c : Component) :
  let r := injectLidoScripts env c in
  (appended (trace r) = [] \/
   (appended (trace r)
    = [scriptEsm (baseUrl c); scriptNoModule (baseUrl c)] /\
    baseUrl c <> EmptyString /\ scriptsInjected c = false /\
    xhr_ok (xhr env HEAD (scriptCheckUrl (baseUrl c))) = true /\
    scriptsInjected (this r) = true /\ imports (trace r) = [])) /\
  (imports (trace r) <> [] -> appended (trace r) = [] /\ this r = c) /\
  appended (trace (fetchXmlData env c)) = [] /\
  imports (trace (fetchXmlData env c)) = [] /\
  (forall s, appended (trace (import_settled s env c)) = [] /\
             imports (trace (import_settled s env c)) = []).
Proof.
  cbv zeta. split; [|split; [|split; [|split]]].
  - inject_cases env c; cbn; auto.
    right. rewrite Hs. repeat split; try reflexivity.
    now apply truthy_true_iff.
  - inject_cases env c; cbn; intros H; try (now elim H); split; reflexivity.
  - fetch_cases env c; reflexivity.
  - apply fetch_starts_no_import.
  - intros s. destruct s as [e|[e|]]; split; reflexivity.
Qed.

(** *** The cleaned base *)

Lemma all_slashes_ends (s : string) :
  s <> EmptyString -> all_slashes s = true -> ends_with_slash s = true.
Proof.
  induction s as [|a r IH]; [congruence|].
  intros _ H. cbn in H. apply andb_true_iff in H as [Ha Hr].
  destruct r as [|a' r']; [exact Ha|].
  cbn [ends_with_slash]. apply IH; [discriminate | exact Hr].
Qed.

Lemma replace_trailing_slashes_fixed (s : string) :
  ends_with_slash s = false -> replace_trailing_slashes s = s.
Proof.
  induction s as [|a r IH]; [reflexivity|].
  intros He. cbn [replace_trailing_slashes slashes_to_end].
  destruct (all_slashes (String a r)) eqn:Hall.
  - rewrite all_slashes_ends in He; [discriminate He|discriminate|exact Hall].
  - f_equal. apply IH. destruct r as [|a' r']; [reflexivity | exact He].
Qed.

Lemma replace_trailing_slashes_all (s : string) :
  all_slashes s = true -> replace_trailing_slashes s = EmptyString.
Proof.
  destruct s as [|a r]; [reflexivity|].
  intros H. cbn [replace_trailing_slashes slashes_to_end]. now rewrite H.
Qed.

(** X10: [cleanBase] is the identity exactly on the bases that do not end in a
    slash, and cleaning twice is cleaning once.  A base made of slashes only
    (["/"], ["//"], ...) is truthy but cleans to the empty string, so its
    scripts are looked for at the host-relative
    ["/code/lido-player.esm.js"] and ["/code/lido-player.js"]. *)
Theorem cleanBase_is_a_normal_form (s : string) :
  cleanBase (cleanBase s) = cleanBase s /\
  (cleanBase s = s <-> ends_with_slash s = false) /\
  (s <> EmptyString -> all_slashes s = true ->
   truthy s = true /\
   scriptCheckUrl s = "/code/lido-player.esm.js"%string /\
   noModuleUrl s = "/code/lido-player.js"%string).
Proof.
  unfold cleanBase. split; [|split].
  - apply replace_trailing_slashes_fixed, replace_trailing_slashes_clean.
  - split.
    + intros H. rewrite <- H. apply replace_trailing_slashes_clean.
    + apply replace_trailing_slashes_fixed.
  - intros Hne Hall. split; [now apply truthy_true_iff|].
    unfold scriptCheckUrl, noModuleUrl, cleanBase.
    rewrite (replace_trailing_slashes_all s Hall). split; reflexivity.
Qed.

Lemma cleanBase_is_a_normal_form_witness :
  cleanBase "https://h/p" = "https://h/p"%string /\
  cleanBase "https://h/p///" = "https://h/p"%string /\
  scriptCheckUrl "//" = "/code/lido-player.esm.js"%string.
Proof.
  destruct (cleanBase_is_a_normal_form "https://h/p") as (_ & [_ Hfix] & _).
  destruct (cleanBase_is_a_normal_form "//")
    as (_ & _ & Hroot).
  destruct (Hroot ltac:(discriminate) eq_refl) as (_ & Hu & _).
  exact (conj (Hfix eq_refl) (conj eq_refl Hu)).
Defined.

(** *** The watchers *)

(** X11: A change of [baseUrl] runs script resolution only: it sends no GET,
    assigns none of [localXmlData], [xmlPath] and [xmlBaseUrl], and so leaves
    a location and a base derived from the old [baseUrl] in place.  A change
    of [xmlPath] runs content resolution only: it sends no HEAD, appends no
    script, starts no import and leaves [scriptsInjected] and [baseUrl]
    alone.  A change of [xmlData] has no watcher: nothing runs, and
    [localXmlData] keeps the earlier payload. *)
Theorem watchers_run_their_own_resolution (env : Env) (c : Component) :
  (forall v,
     let r := handle (BaseUrlChanged v) env c in
     baseUrl (this r) = v /\
     (forall m u, In (m, u) (requests (trace r)) -> m = HEAD) /\
     localXmlData (this r) = localXmlData c /\
     xmlPath (this r) = xmlPath c /\
     xmlBaseUrl (this r) = xmlBaseUrl c /\
     attr_xml_data (render (this r)) = localXmlData c /\
     attr_base_url (render (this r)) = xmlBaseUrl c) /\
  (forall v,
     let r := handle (XmlPathChanged v) env c in
     (forall m u, In (m, u) (requests (trace r)) -> m = GET) /\
     appended (trace r) = [] /\ imports (trace r) = [] /\
     scriptsInjected (this r) = scriptsInjected c /\
     baseUrl (this r) = baseUrl c) /\
  (forall v,
     let r := handle (XmlDataChanged v) env c in
     trace r = [] /\ xmlData (this r) = v /\
     localXmlData (this r) = localXmlData c).
Proof.
  split; [|split]; intros v; cbv zeta;
    rewrite ?handle_this, ?handle_trace.
  - destruct (inject_keeps_content env (set_baseUrl v c))
      as (_ & Hp & Hb & Hx & Hl).
    split; [exact Hb|]. split.
    + intros m u H.
      destruct (inject_requests env (set_baseUrl v c)) as [Hq|Hq];
        rewrite Hq in H; [destruct H|].
      destruct H as [H|[]]. now inversion H.
    + cbn [render attr_xml_data attr_base_url]. auto.
  - destruct (fetch_frame env (set_xmlPath v c))
      as (Hb & _ & _ & _ & _ & Hi).
    split.
    + intros m u H.
      destruct (fetch_requests env (set_xmlPath v c))
        as [Hq|(p & _ & [Hq | [Hq _]])];
        rewrite Hq in H; [destruct H| |].
      * destruct H as [H|[]]. now inversion H.
      * destruct H as [H|[H|[]]]; now inversion H.
    + split; [fetch_cases env (set_xmlPath v c); reflexivity|].
      split; [apply fetch_starts_no_import|]. auto.
  - cbn. repeat split; reflexivity.
Qed.

(** *** Resolved content is never taken back *)

Lemma fetch_keeps_resolved (env : Env) (c : Component) :
  (localXmlData c <> None -> localXmlData (this (fetchXmlData env c)) <> None)
  /\ (xmlBaseUrl c <> None -> xmlBaseUrl (this (fetchXmlData env c)) <> None).
Proof.
  fetch_cases env c; cbn; split; intros H; try exact H; try discriminate.
  destruct (xmlData c); [discriminate | discriminate Hd].
Qed.

Lemma next_keeps_resolved (env : Env) (s : step) (p : Page) :
  (localXmlData (component p) <> None ->
   localXmlData (component (next env s p)) <> None) /\
  (xmlBaseUrl (component p) <> None ->
   xmlBaseUrl (component (next env s p)) <> None).
Proof.
  destruct s as [t|]; cbn [next component].
  - rewrite handle_this. destruct t as [|v|v|v].
    + destruct (inject_keeps_content env (component p))
        as (_ & _ & _ & Hx & Hl).
      destruct (fetch_keeps_resolved env
                  (this (injectLidoScripts env (component p)))) as (H1 & H2).
      rewrite Hl in H1. rewrite Hx in H2. split; assumption.
    + destruct (inject_keeps_content env (set_baseUrl v (component p)))
        as (_ & _ & _ & Hx & Hl).
      rewrite Hl, Hx. split; auto.
    + apply (fetch_keeps_resolved env (set_xmlPath v (component p))).
    + split; auto.
  - destruct (pending p) as [|s rest]; [split; auto|]. cbn [component].
    destruct (settled_frame env (component p) (import_module env s))
      as [-> | ->]; split; auto.
Qed.

(** X12: Once [localXmlData] holds a payload, it holds one after every history
    of triggers and settled imports, and likewise [xmlBaseUrl]: a failed
    request, an emptied [xmlPath], [xmlData] or [baseUrl] never clear what
    was resolved, so <lido-home> keeps receiving an [xml-data] (and a
    [base-url]) once it has received one. *)
Theorem resolved_content_is_never_cleared (h : list (Env * step))
    (p : Page) :
  (localXmlData (component p) <> None ->
   localXmlData (component (history h p)) <> None /\
   attr_xml_data (render (component (history h p))) <> None) /\
  (xmlBaseUrl (component p) <> None ->
   xmlBaseUrl (component (history h p)) <> None /\
   attr_base_url (render (component (history h p))) <> None).
Proof.
  revert p. induction h as [|[env s] h IH]; intros p; cbn [history].
  - split; intros H; split; exact H.
  - destruct (IH (next env s p)) as (H1 & H2).
    destruct (next_keeps_resolved env s p) as (N1 & N2).
    split; intros H; [apply H1, N1, H | apply H2, N2, H].
Qed.

Lemma resolved_content_is_never_cleared_witness :
  let p := {| component := this (fetchXmlData Scenario.xml_ok
                                   (Scenario.configured "https://x/y"
                                      None None));
              pending := [] |} in
  let h := [(Scenario.offline (ImportRejected "gone"),
             Trigger (XmlPathChanged None));
            (Scenario.xml_down, Trigger (BaseUrlChanged ""));
            (Scenario.xml_down, Trigger (XmlPathChanged (Some EmptyString)));
            (Scenario.xml_down, SettleNext)] in
  localXmlData (component p) <> None /\
  xmlBaseUrl (component p) <> None /\
  localXmlData (component (history h p)) <> None /\
  xmlBaseUrl (component (history h p)) <> None.
Proof.
  intros p h.
  assert (Hl : localXmlData (component p) <> None) by discriminate.
  assert (Hb : xmlBaseUrl (component p) <> None) by discriminate.
  destruct (resolved_content_is_never_cleared h p) as (H1 & H2).
  exact (conj Hl (conj Hb (conj (proj1 (H1 Hl)) (proj1 (H2 Hb))))).
Defined.

(** *** The default location, for every base *)



(** *** The properties above, on concrete servers *)

(** A file answered with 299 exists; one answered with 300 does not. *)
Lemma doesFileExistSync_answers_2xx_witness :
  let env := Scenario.server
               [(HEAD, "https://h/a", XhrResponse 299 "");
                (HEAD, "https://h/b", XhrResponse 300 "")]%string
               (ImportFulfilled None) in
  result (doesFileExistSync "https://h/a" env initial) = Normal true /\
  result (doesFileExistSync "https://h/b" env initial) <> Normal true.
Proof.
  intros env.
  destruct (doesFileExistSync_answers_2xx env initial "https://h/a")
    as (_ & _ & _ & _ & _ & _ & Ha & _).
  destruct (doesFileExistSync_answers_2xx env initial "https://h/b")
    as (_ & _ & _ & _ & _ & _ & Hb & _).
  destruct (Ha 299 ""%string eq_refl) as ([_ Hy] & _).
  destruct (Hb 300 ""%string eq_refl) as ([Hn _] & _).
  refine (conj (Hy ltac:(lia)) _).
  intros H. apply Hn in H. lia.
Defined.

(** A refused probe starts the import, appends nothing and leaves the
    component alone. *)
Lemma scripts_only_after_confirmed_probe_witness :
  let env := Scenario.xml_ok in
  let c := Scenario.configured "https://x/y" None None in
  let r := injectLidoScripts env c in
  imports (trace r) <> [] /\ appended (trace r) = [] /\ this r = c.
Proof.
  intros env c r.
  destruct (scripts_only_after_confirmed_probe env c) as (_ & H & _).
  assert (Hi : imports (trace r) <> []) by discriminate.
  exact (conj Hi (H Hi)).
Defined.

(** A change of the base after the default was resolved probes the new base
    and keeps the payload and the base resolved from the old one. *)
Lemma watchers_run_their_own_resolution_witness :
  let c := this (fetchXmlData Scenario.xml_ok
                   (Scenario.configured "https://x/y" None None)) in
  let r := handle (BaseUrlChanged "https://h/p") Scenario.scripts_ok c in
  requests (trace r) = [(HEAD, "https://h/p/code/lido-player.esm.js"%string)]
  /\ (forall m u, In (m, u) (requests (trace r)) -> m = HEAD)
  /\ baseUrl (this r) = "https://h/p"%string
  /\ xmlBaseUrl (this r) = Some "https://x/y"%string
  /\ attr_xml_data (render (this r)) = Some "<xml/>"%string.
Proof.
  intros c r.
  destruct (watchers_run_their_own_resolution Scenario.scripts_ok c)
    as (H & _).
  destruct (H "https://h/p"%string) as (Hb & Hq & _ & _ & Hx & Hd & _).
  exact (conj eq_refl (conj Hq (conj Hb (conj Hx Hd)))).
Defined.
